(** * statement_vtab: the SQLite "statement" virtual table, embedded

    The development follows [statement_vtab.c]: the schema text built from a
    prepared statement's metadata ([build_create_statement]), relation
    creation ([statement_vtab_create], [statement_vtab_connect]), the planner
    hook ([statement_vtab_best_index]) and the cursor
    ([statement_vtab_filter], [statement_vtab_next], [statement_vtab_column]).

    C [int] values are integers of [Z] with two's-complement wrap-around
    written out ([int_wrap]); [sqlite3_uint64] values are integers of [Z]
    reduced modulo [2^64] ([u64]).  Arrays that the code updates by index are
    lists with stdpp's lookup and insert. *)

From Stdlib Require Import ZArith Lia List Bool String Ascii DecimalString.
From stdpp Require Import base list.

Local Open Scope Z_scope.

(** ** Machine integers *)

Definition INT_MAX : Z := 2 ^ 31 - 1.

Definition int_wrap (z : Z) : Z := (z + 2 ^ 31) mod 2 ^ 32 - 2 ^ 31.
Definition int_add (a b : Z) : Z := int_wrap (a + b).
Definition int_sub (a b : Z) : Z := int_wrap (a - b).
Definition int_range (z : Z) : Prop := - 2 ^ 31 <= z <= INT_MAX.

Definition u64 (z : Z) : Z := z mod 2 ^ 64.

(** ** Result codes and planner constants of the SQLite C interface *)

Definition SQLITE_OK : Z := 0.
Definition SQLITE_ERROR : Z := 1.
Definition SQLITE_NOMEM : Z := 7.
Definition SQLITE_CONSTRAINT : Z := 19.
Definition SQLITE_MISUSE : Z := 21.
Definition SQLITE_ROW : Z := 100.
Definition SQLITE_DONE : Z := 101.
Definition SQLITE_INDEX_CONSTRAINT_EQ : Z := 2.

(** ** The relation handle, [struct statement_vtab] *)

Record statement_vtab := {
  sql : string;
  sql_len : Z;
  num_inputs : Z;
  num_outputs : Z
}.

(** ** The planner, [statement_vtab_best_index] *)

Module Planner.

Record sqlite3_index_constraint := {
  iColumn : Z;
  op : Z;
  usable : bool
}.

Record sqlite3_index_constraint_usage := {
  argvIndex : Z;
  omit : bool
}.

Record sqlite3_index_info := {
  aConstraint : list sqlite3_index_constraint;
  aConstraintUsage : list sqlite3_index_constraint_usage;
  idxStr : option (list Z);
  needToFreeIdxStr : bool;
  orderByConsumed : bool;
  estimatedCost : Z;
  estimatedRows : Z
}.

(** [nConstraint] is the number of entries of [aConstraint]. *)
Definition nConstraint (info : sqlite3_index_info) : nat :=
  length (aConstraint info).

(** The locals of the first loop, together with the usage array it writes. *)
Record scan_state := {
  st_usage : list sqlite3_index_constraint_usage;
  col_max : Z;
  used_cols : Z;
  out_constraints : Z
}.

Inductive scan_result :=
| Infeasible (st : scan_state)
| Scanned (st : scan_state).

(** The first loop, lines 216-235: [cs] is [aConstraint] from position [i]
    on.  An early [return SQLITE_CONSTRAINT] keeps the writes made so far.
    The shift of line 232 is guarded by [col_index < 64], so the bit set
    stays below [2^64] without reduction. *)
Fixpoint scan_constraints (nout : Z) (cs : list sqlite3_index_constraint)
    (i : nat) (st : scan_state) : scan_result :=
  match cs with
  | [] => Scanned st
  | c :: rest =>
      if iColumn c <? nout then scan_constraints nout rest (S i) st
      else if negb (usable c) || negb (op c =? SQLITE_INDEX_CONSTRAINT_EQ)
      then Infeasible st
      else
        let col_index := int_sub (iColumn c) nout in
        let usage' :=
          <[i := {| argvIndex := int_add col_index 1; omit := true |}]>
            (st_usage st) in
        let col_max' :=
          if int_add col_index 1 >? col_max st
          then int_add col_index 1 else col_max st in
        let used_cols' :=
          if col_index <? 64
          then Z.lor (used_cols st) (Z.shiftl 1 col_index)
          else used_cols st in
        scan_constraints nout rest (S i)
          {| st_usage := usage';
             col_max := col_max';
             used_cols := used_cols';
             out_constraints := int_add (out_constraints st) 1 |}
  end.

(** The second loop, lines 252-258: [n] entries remain from position [i].
    The map has [out_constraints] cells and the loop writes one cell per
    entry with an argument position, so every write is in range on a usage
    array that the first loop filled from zeroed entries; a write beyond the
    buffer, which the C code would perform on any other array, is left out
    (stdpp's insert does nothing there). *)
Fixpoint build_colmap (n : nat) (i : nat)
    (usage : list sqlite3_index_constraint_usage) (colmap : list Z)
    (argc : Z) : list sqlite3_index_constraint_usage * list Z * Z :=
  match n with
  | O => (usage, colmap, argc)
  | S n' =>
      match usage !! i with
      | Some u =>
          let old_index := argvIndex u in
          if old_index =? 0 then build_colmap n' (S i) usage colmap argc
          else
            let colmap' := <[Z.to_nat argc := old_index]> colmap in
            let argc' := int_add argc 1 in
            build_colmap n' (S i)
              (<[i := {| argvIndex := argc'; omit := omit u |}]> usage)
              colmap' argc'
      | None => build_colmap n' (S i) usage colmap argc
      end
  end.

Definition required_cols (col_max : Z) : Z :=
  u64 ((if col_max <? 64 then Z.shiftl 1 col_max else 0) - 1).

Definition set_plan_constants (info : sqlite3_index_info)
    : sqlite3_index_info :=
  {| aConstraint := aConstraint info;
     aConstraintUsage := aConstraintUsage info;
     idxStr := idxStr info;
     needToFreeIdxStr := needToFreeIdxStr info;
     orderByConsumed := false;
     estimatedCost := 1;
     estimatedRows := 1 |}.

Definition set_usage (info : sqlite3_index_info)
    (usage : list sqlite3_index_constraint_usage) : sqlite3_index_info :=
  {| aConstraint := aConstraint info;
     aConstraintUsage := usage;
     idxStr := idxStr info;
     needToFreeIdxStr := needToFreeIdxStr info;
     orderByConsumed := orderByConsumed info;
     estimatedCost := estimatedCost info;
     estimatedRows := estimatedRows info |}.

Definition set_idxStr (info : sqlite3_index_info) (colmap : list Z)
    : sqlite3_index_info :=
  {| aConstraint := aConstraint info;
     aConstraintUsage := aConstraintUsage info;
     idxStr := Some colmap;
     needToFreeIdxStr := true;
     orderByConsumed := orderByConsumed info;
     estimatedCost := estimatedCost info;
     estimatedRows := estimatedRows info |}.

(** [sqlite3_malloc64] for the column map is an oracle: [None] when the
    allocation fails, otherwise the unspecified initial contents of the
    cells of the fresh buffer. *)
Definition fresh_buffer (junk : nat -> Z) (n : Z) : list Z :=
  map junk (seq 0 (Z.to_nat n)).

Definition statement_vtab_best_index (sqlite3_malloc64 : option (nat -> Z))
    (vt : statement_vtab) (index_info : sqlite3_index_info)
    : Z * sqlite3_index_info :=
  let nout := num_outputs vt in
  let info0 := set_plan_constants index_info in
  match scan_constraints nout (aConstraint info0) 0%nat
          {| st_usage := aConstraintUsage info0;
             col_max := 0; used_cols := 0; out_constraints := 0 |} with
  | Infeasible st => (SQLITE_CONSTRAINT, set_usage info0 (st_usage st))
  | Scanned st =>
      let info1 := set_usage info0 (st_usage st) in
      if (out_constraints st =? 0)
         || ((col_max st <=? 64)
             && (used_cols st =? required_cols (col_max st)))
      then (SQLITE_OK, info1)
      else
        match sqlite3_malloc64 with
        | None => (SQLITE_NOMEM, info1)
        | Some junk =>
            let colmap := fresh_buffer junk (out_constraints st) in
            let '(usage', colmap', _) :=
              build_colmap (nConstraint info1) 0%nat (st_usage st) colmap 0 in
            (SQLITE_OK, set_idxStr (set_usage info1 usage') colmap')
        end
  end.

(** A predicate on a hidden input column: its column index is not below the
    number of output columns. *)
Definition hidden (nout : Z) (c : sqlite3_index_constraint) : bool :=
  negb (iColumn c <? nout).

Definition usable_eq (c : sqlite3_index_constraint) : bool :=
  usable c && (op c =? SQLITE_INDEX_CONSTRAINT_EQ).

End Planner.

(** ** The cursor: [statement_vtab_filter], [statement_vtab_next],
       [statement_vtab_column], [statement_vtab_rowid], [statement_vtab_eof] *)

Module Cursor.

(** The values the host passes around ([sqlite3_value]). *)
Inductive sqlite3_value :=
| SqlNull
| SqlInteger (z : Z)
| SqlText (s : string)
| SqlBlob (b : list Byte.byte).

(** The part of the host's prepared-statement interface the cursor calls.
    A statement is threaded through the calls that change it. *)
Class StatementService (statement : Type) := {
  sqlite3_step : statement -> Z * statement;
  sqlite3_reset : statement -> statement;
  sqlite3_clear_bindings : statement -> statement;
  sqlite3_bind_value : statement -> Z -> sqlite3_value -> Z * statement;
  sqlite3_column_value : statement -> Z -> sqlite3_value;
  sqlite3_stmt_busy : statement -> bool;
  (** A step reports a row, the end of the rows, or an error code; it never
      returns [SQLITE_OK]. *)
  sqlite3_step_not_ok : forall s, fst (sqlite3_step s) <> SQLITE_OK
}.

(** [struct statement_cursor]. *)
Record statement_cursor (statement : Type) := {
  stmt : statement;
  rowid : Z;
  param_argc : Z;
  param_argv : list sqlite3_value
}.
Arguments stmt {statement} _.
Arguments rowid {statement} _.
Arguments param_argc {statement} _.
Arguments param_argv {statement} _.
Arguments Build_statement_cursor {statement} _ _ _ _.

(** The function result a column read writes into; the host hands over a
    context whose result is SQL NULL. *)
Record sqlite3_context := { result : sqlite3_value }.

Definition new_context : sqlite3_context := {| result := SqlNull |}.

Definition sqlite3_result_value (ctx : sqlite3_context) (v : sqlite3_value)
    : sqlite3_context :=
  {| result := v |}.

(** What a call leaves behind: a return code and the object it worked on, or
    an aborted process when an [assert] fails. *)
Inductive outcome (A : Type) :=
| Returns (rc : Z) (a : A)
| AssertionFailure.
Arguments Returns {A} _ _.
Arguments AssertionFailure {A}.

Section WithService.

Context {statement : Type} `{StatementService statement}.

Definition with_stmt (cur : statement_cursor statement) (s : statement)
    : statement_cursor statement :=
  {| stmt := s; rowid := rowid cur;
     param_argc := param_argc cur; param_argv := param_argv cur |}.

Definition statement_vtab_next (cur : statement_cursor statement)
    : Z * statement_cursor statement :=
  let '(ret, s) := sqlite3_step (stmt cur) in
  if ret =? SQLITE_ROW then
    (SQLITE_OK,
     {| stmt := s; rowid := int_add (rowid cur) 1;
        param_argc := param_argc cur; param_argv := param_argv cur |})
  else
    (if ret =? SQLITE_DONE then SQLITE_OK else ret, with_stmt cur s).

Definition statement_vtab_rowid (cur : statement_cursor statement) : Z * Z :=
  (SQLITE_OK, rowid cur).

Definition statement_vtab_eof (cur : statement_cursor statement) : bool :=
  negb (sqlite3_stmt_busy (stmt cur)).

Definition statement_vtab_column (vt : statement_vtab)
    (cur : statement_cursor statement) (ctx : sqlite3_context) (i : Z)
    : Z * sqlite3_context :=
  let num_outputs := num_outputs vt in
  if i <? num_outputs then
    (SQLITE_OK,
     sqlite3_result_value ctx (sqlite3_column_value (stmt cur) i))
  else if int_sub i num_outputs <? param_argc cur then
    match param_argv cur !! Z.to_nat (int_sub i num_outputs) with
    | Some v => (SQLITE_OK, sqlite3_result_value ctx v)
    | None => (SQLITE_OK, ctx)
    end
  else (SQLITE_OK, ctx).

(** The binding loop of [statement_vtab_filter], lines 194-196: [args] is
    [argv] from position [i] on.  The parameter position is read from the
    index map when one was attached, and is [i+1] otherwise. *)
Fixpoint bind_arguments (s : statement) (idxStr : option (list Z))
    (args : list sqlite3_value) (i : Z) : Z * statement :=
  match args with
  | [] => (SQLITE_OK, s)
  | v :: rest =>
      let position :=
        match idxStr with
        | Some colmap => nth (Z.to_nat i) colmap 0
        | None => int_add i 1
        end in
      let '(ret, s') := sqlite3_bind_value s position v in
      if ret =? SQLITE_OK
      then bind_arguments s' idxStr rest (int_add i 1)
      else (ret, s')
  end.

(** [memcpy(param_argv, argv, sizeof( *param_argv) * argc)]: the first [argc]
    cells of the buffer are overwritten. *)
Definition memcpy (buffer source : list sqlite3_value) : list sqlite3_value :=
  source ++ drop (length source) buffer.

Definition statement_vtab_filter (vt : statement_vtab)
    (cur : statement_cursor statement) (idxNum : Z) (idxStr : option (list Z))
    (argv : list sqlite3_value) : outcome (statement_cursor statement) :=
  let argc := Z.of_nat (length argv) in
  let cur1 :=
    {| stmt := sqlite3_clear_bindings (sqlite3_reset (stmt cur));
       rowid := 1;
       param_argc := param_argc cur; param_argv := param_argv cur |} in
  let '(ret, s) := bind_arguments (stmt cur1) idxStr argv 0 in
  if negb (ret =? SQLITE_OK) then Returns ret (with_stmt cur1 s)
  else
    let '(ret, s) := sqlite3_step s in
    if negb ((ret =? SQLITE_ROW) || (ret =? SQLITE_DONE))
    then Returns ret (with_stmt cur1 s)
    else if negb (num_inputs vt >=? argc) then AssertionFailure
    else
      Returns SQLITE_OK
        {| stmt := s; rowid := 1; param_argc := argc;
           param_argv :=
             if argc =? 0 then param_argv cur
             else memcpy (param_argv cur) argv |}.

(** [n] calls of [statement_vtab_next] in a row, whatever they return. *)
Fixpoint advance (n : nat) (cur : statement_cursor statement)
    : statement_cursor statement :=
  match n with
  | O => cur
  | S n' => advance n' (snd (statement_vtab_next cur))
  end.

(** Each of the next [n] execution steps produces a row. *)
Fixpoint rows_follow (n : nat) (cur : statement_cursor statement) : Prop :=
  match n with
  | O => True
  | S n' =>
      fst (sqlite3_step (stmt cur)) = SQLITE_ROW
      /\ rows_follow n' (snd (statement_vtab_next cur))
  end.

End WithService.

(** A small statement service to run the cursor on: a statement holds the
    rows still to be produced, the row it is positioned on and its
    bindings; stepping past the last row reports [SQLITE_DONE]. *)
Record table_stmt := {
  pending : list (list sqlite3_value);
  current : option (list sqlite3_value);
  bindings : list (Z * sqlite3_value)
}.

Definition table_step (s : table_stmt) : Z * table_stmt :=
  match pending s with
  | row :: rest =>
      (SQLITE_ROW,
       {| pending := rest; current := Some row; bindings := bindings s |})
  | [] =>
      (SQLITE_DONE,
       {| pending := []; current := None; bindings := bindings s |})
  end.

#[export] Instance table_service : StatementService table_stmt := {
  sqlite3_step := table_step;
  sqlite3_reset := fun s =>
    {| pending := pending s; current := None; bindings := bindings s |};
  sqlite3_clear_bindings := fun s =>
    {| pending := pending s; current := current s; bindings := [] |};
  sqlite3_bind_value := fun s position v =>
    (SQLITE_OK,
     {| pending := pending s; current := current s;
        bindings := (position, v) :: bindings s |});
  sqlite3_column_value := fun s i =>
    match current s with
    | Some row => nth (Z.to_nat i) row SqlNull
    | None => SqlNull
    end;
  sqlite3_stmt_busy := fun s =>
    match current s with Some _ => true | None => false end;
  sqlite3_step_not_ok :=
    ltac:(intros s; unfold table_step; destruct (pending s); discriminate)
}.

(** A cursor over the given rows that has not been bound yet; its row id
    and its argument buffer hold whatever the allocation left there. *)
Definition cursor_over (rows : list (list sqlite3_value)) (junk : Z)
    (buffer : list sqlite3_value) : statement_cursor table_stmt :=
  {| stmt := {| pending := rows; current := None; bindings := [] |};
     rowid := junk; param_argc := junk; param_argv := buffer |}.

End Cursor.

(** ** Schema derivation and relation creation: [build_create_statement],
       [statement_vtab_create], [statement_vtab_connect] *)

Module Schema.

(** The metadata of a prepared statement that the code reads: per result
    column its name and declared type (either may be a null pointer), per
    bind parameter its name (null for a nameless [?]), and whether the
    statement is read-only.  The null statement that the host returns for a
    text without any statement reads as no columns, no parameters,
    read-only. *)
Record sqlite3_stmt := {
  columns : list (option string * option string);
  parameters : list (option string);
  readonly : bool
}.

Definition sqlite3_column_count (s : sqlite3_stmt) : Z :=
  Z.of_nat (length (columns s)).

Definition sqlite3_column_name (s : sqlite3_stmt) (i : Z) : option string :=
  if i <? 0 then None
  else match columns s !! Z.to_nat i with
       | Some (name, _) => name
       | None => None
       end.

Definition sqlite3_column_decltype (s : sqlite3_stmt) (i : Z) : option string :=
  if i <? 0 then None
  else match columns s !! Z.to_nat i with
       | Some (_, type) => type
       | None => None
       end.

Definition sqlite3_bind_parameter_count (s : sqlite3_stmt) : Z :=
  Z.of_nat (length (parameters s)).

(** Parameter positions are 1-based. *)
Definition sqlite3_bind_parameter_name (s : sqlite3_stmt) (i : Z)
    : option string :=
  if i <? 1 then None
  else match parameters s !! Z.to_nat (i - 1) with
       | Some name => name
       | None => None
       end.

Definition sqlite3_stmt_readonly (s : sqlite3_stmt) : bool := readonly s.

(** *** Formatting, as [sqlite3_str_appendf] does it *)

(** The body of [%Q]: every single quote is written twice. *)
Fixpoint double_quotes (s : string) : string :=
  match s with
  | EmptyString => EmptyString
  | String c rest =>
      if Ascii.eqb c "'"%char
      then String c (String c (double_quotes rest))
      else String c (double_quotes rest)
  end.

(** [%Q] of a string that is not null. *)
Definition format_Q (s : string) : string :=
  ("'" ++ double_quotes s ++ "'")%string.

(** [%d]. *)
Definition format_d (z : Z) : string := NilZero.string_of_int (Z.to_int z).

(** [name+1]: the text after the first character. *)
Definition skip_marker (name : string) : string :=
  match name with
  | EmptyString => EmptyString
  | String _ rest => rest
  end.

(** [sqlite3_str_value(sql)[sqlite3_str_length(sql)-1] = ')'], guarded by a
    length that is not zero. *)
Fixpoint close_paren (s : string) : string :=
  match s with
  | EmptyString => EmptyString
  | String c EmptyString => ")"%string
  | String c rest => String c (close_paren rest)
  end.

(** The first loop of [build_create_statement], lines 34-42: [n] columns
    remain from position [i]; [None] is the early [return NULL]. *)
Fixpoint append_outputs (s : sqlite3_stmt) (n : nat) (i : Z) (text : string)
    : option string :=
  match n with
  | O => Some text
  | S n' =>
      match sqlite3_column_name s i with
      | None => None
      | Some name =>
          let type :=
            match sqlite3_column_decltype s i with
            | Some t => t
            | None => EmptyString
            end in
          append_outputs s n' (int_add i 1)
            (text ++ format_Q name ++ " " ++ type ++ ",")%string
      end
  end.

(** The second loop, lines 43-49. *)
Fixpoint append_inputs (s : sqlite3_stmt) (n : nat) (i : Z) (text : string)
    : string :=
  match n with
  | O => text
  | S n' =>
      append_inputs s n' (int_add i 1)
        (match sqlite3_bind_parameter_name s (int_add i 1) with
         | Some name =>
             (text ++ format_Q (skip_marker name) ++ " hidden,")%string
         | None =>
             (text ++ "'" ++ format_d (int_add i 1) ++ "' hidden,")%string
         end)
  end.

(** [str_ok] tells whether the [sqlite3_str] accumulator could allocate; when
    it could not, [sqlite3_str_finish] returns a null pointer. *)
Definition build_create_statement (str_ok : bool) (s : sqlite3_stmt)
    : option string :=
  match append_outputs s (Z.to_nat (sqlite3_column_count s)) 0
          "CREATE TABLE x( "%string with
  | None => None
  | Some text =>
      let text :=
        append_inputs s (Z.to_nat (sqlite3_bind_parameter_count s)) 0 text in
      if str_ok then Some (close_paren text) else None
  end.

(** *** The host around creation *)

(** Which of the allocations made during creation succeed. *)
Record allocator := {
  alloc_message : bool;
  alloc_vtab : bool;
  alloc_sql : bool;
  alloc_str : bool
}.

(** The database connection: preparing a text gives a return code and a
    statement; declaring a schema gives a return code; [sqlite3_errmsg] is
    the text the connection reports for a failed call. *)
Record sqlite3 := {
  sqlite3_prepare_v2 : string -> Z * sqlite3_stmt;
  sqlite3_declare_vtab : string -> Z;
  sqlite3_errmsg : Z -> string
}.

(** What [statement_vtab_create] leaves behind: the return code, [*ppVtab]
    and [*pzErr] (both null unless written). *)
Record create_result := {
  code : Z;
  ppVtab : option statement_vtab;
  pzErr : option string
}.

Definition strlen (s : string) : Z := Z.of_nat (String.length s).

Definition char_at (s : string) (i : Z) : option ascii :=
  if i <? 0 then None else String.get (Z.to_nat i) s.

Definition is_char (o : option ascii) (c : ascii) : bool :=
  match o with
  | Some a => Ascii.eqb a c
  | None => false
  end.

(** [*pzErr = sqlite3_mprintf(msg)], returning [rc] unless the message could
    not be allocated. *)
Definition report (a : allocator) (rc : Z) (msg : string) : create_result :=
  if alloc_message a
  then {| code := rc; ppVtab := None; pzErr := Some msg |}
  else {| code := SQLITE_NOMEM; ppVtab := None; pzErr := None |}.

Definition statement_vtab_create (a : allocator) (db : sqlite3)
    (argv : list string) : create_result :=
  let argc := Z.of_nat (length argv) in
  match (if argc <? 4 then None else argv !! 3%nat) with
  | None => report a SQLITE_MISUSE "no statement provided"%string
  | Some arg =>
      let len := strlen arg in
      if len <? 3 then report a SQLITE_MISUSE "no statement provided"%string
      else if negb (is_char (char_at arg 0) "("%char)
              || negb (is_char (char_at arg (len - 1)) ")"%char)
      then report a SQLITE_MISUSE "statement must be parenthesized"%string
      else if negb (alloc_vtab a)
      then {| code := SQLITE_NOMEM; ppVtab := None; pzErr := None |}
      else
        let sql_len := len - 2 in
        if negb (alloc_sql a)
        then {| code := SQLITE_NOMEM; ppVtab := None; pzErr := None |}
        else
          let sql := String.substring 1 (Z.to_nat sql_len) arg in
          let '(ret, stmt) := sqlite3_prepare_v2 db sql in
          if negb (ret =? SQLITE_OK)
          then report a ret (sqlite3_errmsg db ret)
          else if negb (sqlite3_stmt_readonly stmt)
          then report a SQLITE_ERROR "Statement must be read only."%string
          else
            let vtab :=
              {| sql := sql; sql_len := sql_len;
                 num_inputs := sqlite3_bind_parameter_count stmt;
                 num_outputs := sqlite3_column_count stmt |} in
            match build_create_statement (alloc_str a) stmt with
            | None => {| code := SQLITE_NOMEM; ppVtab := None; pzErr := None |}
            | Some create =>
                let ret := sqlite3_declare_vtab db create in
                if negb (ret =? SQLITE_OK)
                then report a ret (sqlite3_errmsg db ret)
                else {| code := SQLITE_OK; ppVtab := Some vtab; pzErr := None |}
            end
  end.

Definition statement_vtab_connect (a : allocator) (db : sqlite3)
    (argv : list string) : create_result :=
  statement_vtab_create a db argv.

End Schema.

(** ** Vocabulary for stating the planner's properties *)

Module Plan.
Import Planner.

(** Every predicate on a hidden column is a usable equality. *)
Definition feasible (nout : Z) (cs : list sqlite3_index_constraint) : bool :=
  forallb (fun c => implb (hidden nout c) (usable_eq c)) cs.

(** The hidden-column indices [c] of the predicates on hidden columns, in
    the order of the predicates. *)
Definition hidden_columns (nout : Z) (cs : list sqlite3_index_constraint)
    : list Z :=
  map (fun c => iColumn c - nout) (List.filter (hidden nout) cs).

(** One more than the largest index ([max_c + 1]), and [0] for no index. *)
Definition col_bound (cols : list Z) : Z :=
  fold_right (fun c m => Z.max (c + 1) m) 0 cols.

(** The indices below 64 as a set of bits. *)
Definition mask (cols : list Z) : Z :=
  fold_right
    (fun c m => Z.lor (if c <? 64 then Z.shiftl 1 c else 0) m) 0 cols.

(** The indices are exactly the range [0..max_c]: each index below the
    bound occurs. *)
Definition contiguous (cols : list Z) : Prop :=
  forall k, 0 <= k < col_bound cols -> In k cols.

Definition contiguousb (cols : list Z) : bool :=
  forallb (fun k => existsb (Z.eqb k) cols)
    (map Z.of_nat (seq 0 (Z.to_nat (col_bound cols)))).

(** The indices come in ascending order. *)
Fixpoint ascendingb (cols : list Z) : bool :=
  match cols with
  | a :: (b :: _) as rest => (a <? b) && ascendingb rest
  | _ => true
  end.

Definition zero_usage : sqlite3_index_constraint_usage :=
  {| argvIndex := 0; omit := false |}.

Definition is_zero_usage (u : sqlite3_index_constraint_usage) : bool :=
  (argvIndex u =? 0) && negb (omit u).

(** What the host hands to the planner: a usage array of [nConstraint]
    zeroed entries, no index string, and column numbers between [-1] (the
    row id) and the largest column of a table. *)
Definition host_prepared (vt : statement_vtab) (info : sqlite3_index_info)
    : bool :=
  (0 <=? num_outputs vt)
  && Nat.eqb (length (aConstraintUsage info)) (length (aConstraint info))
  && forallb is_zero_usage (aConstraintUsage info)
  && forallb (fun c => (-1 <=? iColumn c) && (iColumn c <? INT_MAX))
       (aConstraint info)
  && (Z.of_nat (length (aConstraint info)) <? INT_MAX)
  && match idxStr info with None => true | Some _ => false end
  && negb (needToFreeIdxStr info).

(** The usage entry of a consumed predicate under the identity order. *)
Definition consumed (nout : Z) (c : sqlite3_index_constraint)
    : sqlite3_index_constraint_usage :=
  {| argvIndex := iColumn c - nout + 1; omit := true |}.

Definition identity_usage (nout : Z) (c : sqlite3_index_constraint)
    : sqlite3_index_constraint_usage :=
  if hidden nout c then consumed nout c else zero_usage.

(** How many predicates on hidden columns come before position [i]. *)
Definition rank (nout : Z) (cs : list sqlite3_index_constraint) (i : nat)
    : Z :=
  Z.of_nat (length (List.filter (hidden nout) (take i cs))).

(** The usage array with argument positions handed out densely from
    [argc + 1] on, in the order of the predicates. *)
Fixpoint dense_usage (nout : Z) (cs : list sqlite3_index_constraint)
    (argc : Z) : list sqlite3_index_constraint_usage :=
  match cs with
  | [] => []
  | c :: rest =>
      if hidden nout c
      then {| argvIndex := argc + 1; omit := true |}
             :: dense_usage nout rest (argc + 1)
      else zero_usage :: dense_usage nout rest argc
  end.

(** The same request with the predicates on output columns left out. *)
Definition hidden_only (nout : Z) (info : sqlite3_index_info)
    : sqlite3_index_info :=
  {| aConstraint := List.filter (hidden nout) (aConstraint info);
     aConstraintUsage :=
       map (fun _ => zero_usage) (List.filter (hidden nout) (aConstraint info));
     idxStr := idxStr info;
     needToFreeIdxStr := needToFreeIdxStr info;
     orderByConsumed := orderByConsumed info;
     estimatedCost := estimatedCost info;
     estimatedRows := estimatedRows info |}.

(** The usage entries at the positions of the predicates on hidden
    columns. *)
Fixpoint hidden_usage (nout : Z) (cs : list sqlite3_index_constraint)
    (us : list sqlite3_index_constraint_usage)
    : list sqlite3_index_constraint_usage :=
  match cs, us with
  | c :: cs', u :: us' =>
      if hidden nout c then u :: hidden_usage nout cs' us'
      else hidden_usage nout cs' us'
  | _, _ => []
  end.

(** A fresh request with usable equality predicates on the given columns. *)
Definition equality_on (column : Z) : sqlite3_index_constraint :=
  {| iColumn := column; op := SQLITE_INDEX_CONSTRAINT_EQ; usable := true |}.

Definition request (cs : list sqlite3_index_constraint) : sqlite3_index_info :=
  {| aConstraint := cs;
     aConstraintUsage := map (fun _ => zero_usage) cs;
     idxStr := None;
     needToFreeIdxStr := false;
     orderByConsumed := false;
     estimatedCost := 0;
     estimatedRows := 0 |}.

(** The state the first loop ends in, whichever way it ends. *)
Definition state_of (r : scan_result) : scan_state :=
  match r with
  | Infeasible st => st
  | Scanned st => st
  end.

(** A relation handle with the given numbers of output and input columns. *)
Definition relation (nout nin : Z) : statement_vtab :=
  {| sql := EmptyString; sql_len := 0;
     num_inputs := nin; num_outputs := nout |}.

End Plan.

(** ** Vocabulary for stating the properties of the derived schema *)

Module Columns.
Import Schema.

Inductive role := Output | HiddenInput.

(** A column of the relation: its name, its declared type (output columns
    only) and its role. *)
Record column := {
  column_name : string;
  declared_type : option string;
  column_role : role
}.

(** The output columns, in statement order; there is none when some result
    column has no name. *)
Fixpoint output_columns (cols : list (option string * option string))
    : option (list column) :=
  match cols with
  | [] => Some []
  | (Some name, type) :: rest =>
      match output_columns rest with
      | Some outs =>
          Some ({| column_name := name; declared_type := type;
                   column_role := Output |} :: outs)
      | None => None
      end
  | (None, _) :: _ => None
  end.

(** The hidden input column of the parameter at the given 1-based
    position: named after the parameter without its leading marker, or after
    the position when the parameter has no name. *)
Definition input_column (position : Z) (parameter : option string) : column :=
  {| column_name :=
       match parameter with
       | Some name => skip_marker name
       | None => format_d position
       end;
     declared_type := None;
     column_role := HiddenInput |}.

Fixpoint input_columns (ps : list (option string)) (position : Z)
    : list column :=
  match ps with
  | [] => []
  | p :: rest => input_column position p :: input_columns rest (position + 1)
  end.

(** The schema of a statement: outputs first, then one hidden input column
    per parameter. *)
Definition derived_schema (s : sqlite3_stmt) : option (list column) :=
  match output_columns (columns s) with
  | Some outs => Some (outs ++ input_columns (parameters s) 1)
  | None => None
  end.

(** The declaration text of a list of columns. *)
Definition column_text (c : column) : string :=
  match column_role c with
  | Output =>
      (format_Q (column_name c) ++ " "
       ++ match declared_type c with Some t => t | None => EmptyString end
       ++ ",")%string
  | HiddenInput => (format_Q (column_name c) ++ " hidden,")%string
  end.

Fixpoint columns_text (cs : list column) : string :=
  match cs with
  | [] => EmptyString
  | c :: rest => (column_text c ++ columns_text rest)%string
  end.

Definition declaration (cs : list column) : string :=
  close_paren ("CREATE TABLE x( " ++ columns_text cs)%string.

(** The argument is a query body between parentheses. *)
Definition parenthesized (arg body : string) : Prop :=
  arg = ("(" ++ body ++ ")")%string.

(** An allocator under which every allocation succeeds. *)
Definition all_succeed : allocator :=
  {| alloc_message := true; alloc_vtab := true;
     alloc_sql := true; alloc_str := true |}.

(** A connection that prepares every text to the given statement and
    answers a schema declaration with the given code and error text. *)
Definition connection (s : sqlite3_stmt) (declared : Z) (message : string)
    : sqlite3 :=
  {| sqlite3_prepare_v2 := fun _ => (SQLITE_OK, s);
     sqlite3_declare_vtab := fun _ => declared;
     sqlite3_errmsg := fun _ => message |}.

(** [SELECT v FROM t WHERE k = :k] with a [TEXT] column [v]. *)
Definition select_v : sqlite3_stmt :=
  {| columns := [(Some "v"%string, Some "TEXT"%string)];
     parameters := [Some ":k"%string];
     readonly := true |}.

(** [SELECT k, v FROM t WHERE k = :k]: the output column [k] and the hidden
    column of the parameter [:k] get the same name. *)
Definition select_k_v : sqlite3_stmt :=
  {| columns := [(Some "k"%string, Some "INTEGER"%string);
                 (Some "v"%string, Some "TEXT"%string)];
     parameters := [Some ":k"%string];
     readonly := true |}.

(** A statement whose only result column has no retrievable name. *)
Definition select_unnamed : sqlite3_stmt :=
  {| columns := [(None, None)];
     parameters := [];
     readonly := true |}.

(** The module arguments of
    [CREATE VIRTUAL TABLE t USING statement((SELECT v FROM t WHERE k = :k))]. *)
Definition module_arguments (arg : string) : list string :=
  ["statement"%string; "main"%string; "t"%string; arg].

End Columns.

(** ** Vocabulary for stating how the planner and the bind fit together *)

Module Binding.
Import Cursor.

(** The parameter position that line 195 computes for the argument at
    position [i]. *)
Definition parameter_position (idxStr : option (list Z)) (i : Z) : Z :=
  match idxStr with
  | Some colmap => nth (Z.to_nat i) colmap 0
  | None => int_add i 1
  end.

(** The pairs of a parameter position and a value that the binding loop
    goes through for [args], the arguments from position [i] on. *)
Fixpoint bindings_from (idxStr : option (list Z))
    (args : list sqlite3_value) (i : Z) : list (Z * sqlite3_value) :=
  match args with
  | [] => []
  | v :: rest =>
      (parameter_position idxStr i, v)
        :: bindings_from idxStr rest (int_add i 1)
  end.

(** Binding the pairs one after the other, up to the first bind that does
    not return [SQLITE_OK]. *)
Fixpoint bind_each {statement : Type} `{StatementService statement}
    (s : statement) (pairs : list (Z * sqlite3_value)) : Z * statement :=
  match pairs with
  | [] => (SQLITE_OK, s)
  | (position, v) :: rest =>
      let '(ret, s') := sqlite3_bind_value s position v in
      if ret =? SQLITE_OK then bind_each s' rest else (ret, s')
  end.

(** The argument vector the host builds from a plan: the value compared
    with the predicate at position [i] sits at the argument position the
    plan gave that predicate. *)
Definition host_arguments
    (usage : list Planner.sqlite3_index_constraint_usage)
    (values argv : list sqlite3_value) : Prop :=
  forall i u v,
    usage !! i = Some u ->
    0 < Planner.argvIndex u ->
    values !! i = Some v ->
    argv !! Z.to_nat (Planner.argvIndex u - 1) = Some v.

(** A statement service over the same statements whose binds all fail
    with the code 25 (a parameter position out of range). *)
Definition refusing_service : StatementService table_stmt :=
  {| sqlite3_step := table_step;
     sqlite3_reset := fun s => s;
     sqlite3_clear_bindings := fun s => s;
     sqlite3_bind_value := fun s _ _ => (25, s);
     sqlite3_column_value := fun _ _ => SqlNull;
     sqlite3_stmt_busy := fun _ => false;
     sqlite3_step_not_ok :=
       ltac:(intros s; unfold table_step; destruct (pending s);
             discriminate) |}.

End Binding.

(** ** Statements for the declared type of a result column *)

Module Declared.
Import Schema.

(** [SELECT v FROM t WHERE k = :k] over a table whose column [v] was
    declared with the type name [TEXT,'w' hidden]: one result column, one
    parameter. *)
Definition select_v_typed : sqlite3_stmt :=
  {| columns := [(Some "v"%string, Some "TEXT,'w' hidden"%string)];
     parameters := [Some ":k"%string];
     readonly := true |}.

(** A statement with the result column [v] of type [TEXT] and the two
    parameters [:w] and [:k]. *)
Definition select_v_w_k : sqlite3_stmt :=
  {| columns := [(Some "v"%string, Some "TEXT"%string)];
     parameters := [Some ":w"%string; Some ":k"%string];
     readonly := true |}.

End Declared.

(** * Properties *)

(** ** Machine integers *)

Lemma int_wrap_small z : int_range z -> int_wrap z = z.
Proof.
  unfold int_range, int_wrap, INT_MAX. intros Hz.
  rewrite Z.mod_small by lia. lia.
Qed.

Lemma int_add_small a b : - 2 ^ 31 <= a + b <= INT_MAX -> int_add a b = a + b.
Proof. apply int_wrap_small. Qed.

Lemma int_sub_small a b : - 2 ^ 31 <= a - b <= INT_MAX -> int_sub a b = a - b.
Proof. apply int_wrap_small. Qed.

(** ** The planner *)

Module PlannerProofs.
Import Planner Plan.

Lemma hidden_spec nout c : hidden nout c = true <-> nout <= iColumn c.
Proof. unfold hidden. rewrite negb_true_iff, Z.ltb_ge. tauto. Qed.

Lemma hidden_false nout c : hidden nout c = false <-> iColumn c < nout.
Proof. unfold hidden. rewrite negb_false_iff, Z.ltb_lt. tauto. Qed.

(** *** The first loop *)

(** The loop stops with [SQLITE_CONSTRAINT] as soon as a predicate on a
    hidden column is unusable or not an equality. *)
Lemma scan_constraints_infeasible nout cs :
  feasible nout cs = false ->
  forall i st, exists st', scan_constraints nout cs i st = Infeasible st'.
Proof.
  induction cs as [|c rest IH]; simpl; [discriminate|].
  intros Hf i st. apply andb_false_iff in Hf.
  destruct (iColumn c <? nout) eqn:Hout.
  - destruct Hf as [Hf|Hf]; [|now apply IH].
    unfold hidden in Hf. rewrite Hout in Hf. discriminate.
  - destruct Hf as [Hf|Hf].
    + unfold hidden in Hf. rewrite Hout in Hf. simpl in Hf.
      unfold usable_eq in Hf.
      destruct (usable c); simpl in *; [rewrite Hf; simpl|]; eauto.
    + destruct (negb (usable c) || negb (op c =? SQLITE_INDEX_CONSTRAINT_EQ));
        eauto.
Qed.

Lemma feasible_false_iff nout cs :
  feasible nout cs = false <->
  exists c, In c cs /\ hidden nout c = true /\ usable_eq c = false.
Proof.
  unfold feasible. split.
  - intros Hf. induction cs as [|c rest IH]; simpl in *; [discriminate|].
    apply andb_false_iff in Hf. destruct Hf as [Hf|Hf].
    + exists c. destruct (hidden nout c), (usable_eq c); simpl in *;
        try discriminate; auto.
    + destruct (IH Hf) as (c' & ? & ?). exists c'. tauto.
  - intros (c & Hin & Hh & Hu).
    destruct (forallb _ cs) eqn:Hall; [|reflexivity].
    rewrite forallb_forall in Hall. specialize (Hall c Hin).
    rewrite Hh, Hu in Hall. discriminate.
Qed.

(** C1. Whenever some predicate on a hidden input column is not usable or
    has an operator other than equality, the planner returns
    [SQLITE_CONSTRAINT] for the whole request, whatever the other
    predicates are, and attaches no index map. *)
Theorem best_index_rejects_unusable_or_non_equality
    (m : option (nat -> Z)) (vt : statement_vtab) (info : sqlite3_index_info)
    (c : sqlite3_index_constraint) :
  In c (aConstraint info) ->
  num_outputs vt <= iColumn c ->
  usable c = false \/ op c <> SQLITE_INDEX_CONSTRAINT_EQ ->
  fst (statement_vtab_best_index m vt info) = SQLITE_CONSTRAINT
  /\ idxStr (snd (statement_vtab_best_index m vt info)) = idxStr info.
Proof.
  intros Hin Hcol Hbad.
  assert (Hf : feasible (num_outputs vt) (aConstraint info) = false).
  { apply feasible_false_iff. exists c. split; [exact Hin|]. split.
    - now apply hidden_spec.
    - unfold usable_eq. destruct Hbad as [->|Hop]; [reflexivity|].
      apply andb_false_iff. right. now apply Z.eqb_neq. }
  unfold statement_vtab_best_index.
  destruct (scan_constraints_infeasible _ _ Hf 0%nat
              {| st_usage := aConstraintUsage (set_plan_constants info);
                 col_max := 0; used_cols := 0; out_constraints := 0 |})
    as [st' Hscan].
  simpl in *. rewrite Hscan. split; reflexivity.
Qed.

(** A request with a usable equality on hidden column 0 and a
    greater-than predicate on hidden column 1 is rejected. *)
Lemma best_index_rejects_witness :
  fst (statement_vtab_best_index None
         (relation 1 2)
         (request [equality_on 1; {| iColumn := 2; op := 4; usable := true |}]))
  = SQLITE_CONSTRAINT.
Proof.
  apply (best_index_rejects_unusable_or_non_equality None _ _
           {| iColumn := 2; op := 4; usable := true |}).
  - simpl. right. left. reflexivity.
  - simpl. lia.
  - right. simpl. discriminate.
Defined.

(** *** The bit set of matched columns *)

Lemma col_bound_nonneg cols : 0 <= col_bound cols.
Proof. induction cols; simpl; lia. Qed.

Lemma col_bound_above cols c : In c cols -> c + 1 <= col_bound cols.
Proof.
  induction cols as [|a cols IH]; simpl; [tauto|].
  intros [->|Hin]; [lia|]. specialize (IH Hin). lia.
Qed.

Lemma mask_testbit cols k :
  0 <= k -> Forall (fun c => 0 <= c) cols ->
  Z.testbit (mask cols) k = existsb (fun c => (c =? k) && (c <? 64)) cols.
Proof.
  intros Hk Hall. induction Hall as [|c cols Hc Hall IH]; simpl.
  - apply Z.bits_0.
  - rewrite Z.lor_spec, IH. f_equal.
    destruct (c <? 64).
    + rewrite Z.shiftl_1_l, Z.pow2_bits_eqb by lia. now rewrite andb_true_r.
    + rewrite Z.bits_0. now rewrite andb_false_r.
Qed.

(** The bit set stays within 64 bits on every request, so that the
    [|=] of line 232 needs no reduction. *)
Lemma lor_u64 a b :
  0 <= a < 2 ^ 64 -> 0 <= b < 2 ^ 64 -> 0 <= Z.lor a b < 2 ^ 64.
Proof.
  intros Ha Hb.
  assert (Hnn : 0 <= Z.lor a b) by (apply Z.lor_nonneg; lia).
  split; [exact Hnn|].
  destruct (Z.eq_dec (Z.lor a b) 0) as [->|Hne]; [reflexivity|].
  apply Z.log2_lt_pow2; [lia|]. rewrite Z.log2_lor by lia.
  apply Z.max_lub_lt.
  - destruct (Z.eq_dec a 0) as [->|]; [reflexivity|].
    apply Z.log2_lt_pow2; lia.
  - destruct (Z.eq_dec b 0) as [->|]; [reflexivity|].
    apply Z.log2_lt_pow2; lia.
Qed.

Lemma shiftl_1_u64 c : c < 64 -> 0 <= Z.shiftl 1 c < 2 ^ 64.
Proof.
  intros Hc. destruct (Z_le_gt_dec 0 c) as [Hpos|Hneg].
  - rewrite Z.shiftl_1_l. split; [apply Z.pow_nonneg; lia|].
    apply Z.pow_lt_mono_r; lia.
  - rewrite Z.shiftl_div_pow2 by lia.
    assert (1 < 2 ^ (- c)) by (apply Z.pow_gt_1; lia).
    rewrite Z.div_small by lia. split; [lia|reflexivity].
Qed.

Lemma scan_constraints_used_cols nout cs :
  forall i st,
    0 <= used_cols st < 2 ^ 64 ->
    0 <= used_cols (state_of (scan_constraints nout cs i st)) < 2 ^ 64.
Proof.
  induction cs as [|c rest IH]; intros i st Hst; [exact Hst|].
  cbn [scan_constraints].
  destruct (iColumn c <? nout); [now apply IH|].
  destruct (negb (usable c) || negb (op c =? SQLITE_INDEX_CONSTRAINT_EQ));
    [exact Hst|].
  apply IH. cbn [used_cols].
  destruct (Z.ltb_spec (int_sub (iColumn c) nout) 64); [|exact Hst].
  apply lor_u64; [exact Hst|]. now apply shiftl_1_u64.
Qed.

Lemma required_cols_ones m : 0 <= m <= 64 -> required_cols m = Z.ones m.
Proof.
  intros Hm. unfold required_cols, u64. rewrite Z.ones_equiv.
  destruct (m <? 64) eqn:Hlt.
  - apply Z.ltb_lt in Hlt. rewrite Z.shiftl_1_l.
    assert (0 < 2 ^ m) by (apply Z.pow_pos_nonneg; lia).
    assert (2 ^ m <= 2 ^ 63) by (apply Z.pow_le_mono_r; lia).
    rewrite Z.mod_small; [lia|].
    change (2 ^ 64) with (2 * 2 ^ 63). lia.
  - apply Z.ltb_ge in Hlt. assert (m = 64) as -> by lia. reflexivity.
Qed.

(** The comparison of line 243 decides whether the matched indices are the
    range [0..max_c]. *)
Lemma mask_contiguous cols :
  Forall (fun c => 0 <= c) cols -> col_bound cols <= 64 ->
  (mask cols =? required_cols (col_bound cols)) = true <-> contiguous cols.
Proof.
  intros Hall Hbound.
  pose proof (col_bound_nonneg cols) as Hnn.
  rewrite required_cols_ones by lia. rewrite Z.eqb_eq. split.
  - intros Heq k Hk.
    assert (Hbit : Z.testbit (mask cols) k = true).
    { rewrite Heq. apply Z.ones_spec_low. lia. }
    rewrite mask_testbit in Hbit by (assumption || lia).
    apply existsb_exists in Hbit. destruct Hbit as (c & Hin & Hc).
    apply andb_true_iff in Hc. destruct Hc as [Hc _].
    apply Z.eqb_eq in Hc. now subst.
  - intros Hcont. apply Z.bits_inj'. intros k Hk.
    rewrite mask_testbit, Z.testbit_ones_nonneg by (assumption || lia).
    destruct (k <? col_bound cols) eqn:Hlt.
    + apply Z.ltb_lt in Hlt. apply existsb_exists. exists k. split.
      * apply Hcont. lia.
      * rewrite Z.eqb_refl. simpl. apply Z.ltb_lt. lia.
    + apply Z.ltb_ge in Hlt.
      destruct (existsb _ cols) eqn:He; [|reflexivity].
      apply existsb_exists in He. destruct He as (c & Hin & Hc).
      apply andb_true_iff in Hc. destruct Hc as [Hc _].
      apply Z.eqb_eq in Hc. subst c.
      pose proof (col_bound_above _ _ Hin). lia.
Qed.

Lemma contiguousb_spec cols : contiguousb cols = true <-> contiguous cols.
Proof.
  unfold contiguousb, contiguous. rewrite forallb_forall. split.
  - intros Hall k Hk.
    assert (Hin : In k (map Z.of_nat (seq 0 (Z.to_nat (col_bound cols))))).
    { apply in_map_iff. exists (Z.to_nat k). split; [lia|].
      apply in_seq. lia. }
    specialize (Hall k Hin). apply existsb_exists in Hall.
    destruct Hall as (c & Hc & Heq). apply Z.eqb_eq in Heq. now subst.
  - intros Hcont k Hin. apply in_map_iff in Hin.
    destruct Hin as (n & <- & Hn). apply in_seq in Hn.
    apply existsb_exists. exists (Z.of_nat n). split.
    + apply Hcont. lia.
    + apply Z.eqb_refl.
Qed.

(** *** The first loop on a feasible request *)

Lemma hidden_columns_cons nout c rest :
  hidden_columns nout (c :: rest) =
  if hidden nout c then (iColumn c - nout) :: hidden_columns nout rest
  else hidden_columns nout rest.
Proof. unfold hidden_columns. simpl. now destruct (hidden nout c). Qed.

Lemma hidden_columns_nonneg nout cs :
  Forall (fun c => 0 <= c) (hidden_columns nout cs).
Proof.
  induction cs as [|c rest IH]; [constructor|].
  rewrite hidden_columns_cons. destruct (hidden nout c) eqn:Hh; [|exact IH].
  constructor; [|exact IH]. apply hidden_spec in Hh. lia.
Qed.

Lemma scan_constraints_feasible nout cs :
  0 <= nout ->
  Forall (fun c => -1 <= iColumn c < INT_MAX) cs ->
  feasible nout cs = true ->
  forall pre us st,
    st_usage st = pre ++ us ->
    length us = length cs ->
    0 <= col_max st ->
    0 <= out_constraints st ->
    out_constraints st + Z.of_nat (length cs) <= INT_MAX ->
    exists st',
      scan_constraints nout cs (length pre) st = Scanned st'
      /\ st_usage st' =
         pre ++ zip_with
                  (fun c u => if hidden nout c then consumed nout c else u)
                  cs us
      /\ col_max st' = Z.max (col_max st) (col_bound (hidden_columns nout cs))
      /\ used_cols st' = Z.lor (used_cols st) (mask (hidden_columns nout cs))
      /\ out_constraints st' =
         out_constraints st + Z.of_nat (length (hidden_columns nout cs)).
Proof.
  intros Hnout Hall Hf.
  induction cs as [|c rest IH]; intros pre us st Hus Hlen Hmax Hout Hroom.
  - destruct us; [|discriminate]. exists st. simpl.
    rewrite Z.lor_0_r, Z.add_0_r. repeat split; try assumption. lia.
  - destruct us as [|u us']; [discriminate|].
    simpl in Hlen. injection Hlen as Hlen.
    inversion Hall as [|? ? Hc Hrest]; subst.
    simpl in Hf. apply andb_true_iff in Hf. destruct Hf as [Hfc Hfrest].
    specialize (IH Hrest Hfrest).
    rewrite hidden_columns_cons. cbn [scan_constraints zip_with].
    change (length (c :: rest)) with (S (length rest)) in Hroom.
    replace (S (length pre)) with (length (pre ++ [u]))
      by (rewrite length_app; simpl; lia).
    destruct (iColumn c <? nout) eqn:Hlt.
    + assert (Hh : hidden nout c = false) by (unfold hidden; now rewrite Hlt).
      rewrite Hh.
      destruct (IH (pre ++ [u]) us' st) as (st' & Hscan & Hu & Hm & Hb & Ho);
        try assumption; try lia.
      { now rewrite <- app_assoc. }
      exists st'. rewrite Hscan, Hu, <- app_assoc. repeat split; assumption.
    + assert (Hh : hidden nout c = true) by (unfold hidden; now rewrite Hlt).
      rewrite Hh in *. simpl in Hfc. unfold usable_eq in Hfc.
      apply andb_true_iff in Hfc. destruct Hfc as [Husable Hop].
      rewrite Husable, Hop. cbn [negb orb].
      apply Z.ltb_ge in Hlt.
      rewrite (int_sub_small (iColumn c) nout) by (unfold INT_MAX in *; lia).
      rewrite (int_add_small (iColumn c - nout) 1)
        by (unfold INT_MAX in *; lia).
      rewrite (int_add_small (out_constraints st) 1)
        by (unfold INT_MAX in *; lia).
      set (col := iColumn c - nout) in *.
      match goal with
      | |- exists st', scan_constraints _ _ _ ?s = _ /\ _ => set (st1 := s)
      end.
      destruct (IH (pre ++ [{| argvIndex := col + 1; omit := true |}]) us' st1)
        as (st' & Hscan & Hu & Hm & Hb & Ho).
      { subst st1. cbn [st_usage]. rewrite Hus, <- app_assoc.
        rewrite insert_app_r_alt by lia. rewrite Nat.sub_diag. reflexivity. }
      { assumption. }
      { subst st1. cbn [col_max]. destruct (col + 1 >? col_max st); lia. }
      { subst st1. cbn [out_constraints]. lia. }
      { subst st1. cbn [out_constraints]. lia. }
      exists st'. split.
      { rewrite length_app in Hscan |- *. exact Hscan. }
      rewrite Hu, Hm, Hb, Ho. subst st1.
      cbn [col_max used_cols out_constraints]. rewrite <- app_assoc.
      split; [reflexivity|]. split; [|split].
      * cbn [col_bound fold_right]. fold (col_bound (hidden_columns nout rest)).
        rewrite Z.gtb_ltb. destruct (Z.ltb_spec (col_max st) (col + 1)); lia.
      * cbn [mask fold_right]. fold (mask (hidden_columns nout rest)).
        destruct (col <? 64).
        -- now rewrite Z.lor_assoc.
        -- now rewrite Z.lor_0_l.
      * cbn [length]. lia.
Qed.

(** *** The second loop *)

Lemma build_colmap_dense nout cs :
  forall pre filled free argc,
    argc = Z.of_nat (length filled) ->
    argc + Z.of_nat (length cs) <= INT_MAX ->
    (length (hidden_columns nout cs) <= length free)%nat ->
    build_colmap (length cs) (length pre)
      (pre ++ map (identity_usage nout) cs) (filled ++ free) argc
    = (pre ++ dense_usage nout cs argc,
       filled ++ map (fun c => c + 1) (hidden_columns nout cs)
         ++ drop (length (hidden_columns nout cs)) free,
       argc + Z.of_nat (length (hidden_columns nout cs))).
Proof.
  induction cs as [|c rest IH]; intros pre filled free argc Hargc Hroom Hfree.
  - simpl. now rewrite drop_0, Z.add_0_r.
  - cbn [length build_colmap map].
    rewrite list_lookup_middle by reflexivity.
    rewrite hidden_columns_cons in *. cbn [dense_usage].
    change (length (c :: rest)) with (S (length rest)) in Hroom.
    destruct (hidden nout c) eqn:Hh.
    + replace (identity_usage nout c) with (consumed nout c)
        by (unfold identity_usage; now rewrite Hh).
      apply hidden_spec in Hh. cbn [consumed argvIndex omit].
      destruct (Z.eqb_spec (iColumn c - nout + 1) 0) as [Hz|_]; [lia|].
      destruct free as [|j free']; [simpl in Hfree; lia|].
      rewrite (int_add_small argc 1) by (unfold INT_MAX in *; lia).
      rewrite !insert_app_r_alt by lia.
      replace (Z.to_nat argc - length filled)%nat with 0%nat by lia.
      rewrite Nat.sub_diag. cbn [insert list_insert].
      set (new := {| argvIndex := argc + 1; omit := true |}).
      set (old := iColumn c - nout + 1).
      replace (S (length pre)) with (length (pre ++ [new]))
        by (rewrite length_app; simpl; lia).
      replace (pre ++ new :: map (identity_usage nout) rest)
        with ((pre ++ [new]) ++ map (identity_usage nout) rest)
        by now rewrite <- app_assoc.
      replace (filled ++ old :: free') with ((filled ++ [old]) ++ free')
        by now rewrite <- app_assoc.
      rewrite IH.
      * rewrite <- !app_assoc. cbn [length map app drop].
        f_equal. lia.
      * rewrite length_app. simpl. lia.
      * lia.
      * simpl in Hfree. lia.
    + replace (identity_usage nout c) with zero_usage
        by (unfold identity_usage; now rewrite Hh).
      cbn [zero_usage argvIndex]. cbn [Z.eqb].
      replace (S (length pre)) with (length (pre ++ [zero_usage]))
        by (rewrite length_app; simpl; lia).
      replace (pre ++ zero_usage :: map (identity_usage nout) rest)
        with ((pre ++ [zero_usage]) ++ map (identity_usage nout) rest)
        by now rewrite <- app_assoc.
      rewrite IH by (assumption || lia).
      now rewrite <- !app_assoc.
Qed.

(** *** What the host hands over *)

Lemma is_zero_usage_eq u : is_zero_usage u = true -> u = zero_usage.
Proof.
  destruct u as [a o]. unfold is_zero_usage, zero_usage. simpl.
  intros Hz. apply andb_true_iff in Hz. destruct Hz as [Ha Ho].
  apply Z.eqb_eq in Ha. apply negb_true_iff in Ho. now subst.
Qed.

Lemma zeroed_usage (us : list sqlite3_index_constraint_usage)
    (cs : list sqlite3_index_constraint) :
  length us = length cs -> forallb is_zero_usage us = true ->
  us = map (fun _ => zero_usage) cs.
Proof.
  revert cs. induction us as [|u us IH]; intros [|c cs] Hlen Hz;
    try discriminate; [reflexivity|].
  simpl in *. apply andb_true_iff in Hz. destruct Hz as [Hu Hz].
  rewrite (is_zero_usage_eq _ Hu). f_equal. apply IH; [lia|assumption].
Qed.

Lemma host_prepared_spec vt info :
  host_prepared vt info = true ->
  0 <= num_outputs vt
  /\ aConstraintUsage info = map (fun _ => zero_usage) (aConstraint info)
  /\ Forall (fun c => -1 <= iColumn c < INT_MAX) (aConstraint info)
  /\ Z.of_nat (length (aConstraint info)) < INT_MAX
  /\ idxStr info = None
  /\ needToFreeIdxStr info = false.
Proof.
  unfold host_prepared. intros Hp.
  repeat (apply andb_true_iff in Hp; destruct Hp as [Hp ?]).
  split; [now apply Z.leb_le|]. split.
  { apply zeroed_usage; [now apply Nat.eqb_eq|assumption]. }
  split.
  { apply List.Forall_forall. intros c Hin.
    match goal with
    | Hall : forallb _ (aConstraint info) = true |- _ =>
        rewrite forallb_forall in Hall; specialize (Hall c Hin);
        apply andb_true_iff in Hall; destruct Hall as [Hlo Hhi]
    end.
    apply Z.leb_le in Hlo. apply Z.ltb_lt in Hhi. lia. }
  split; [now apply Z.ltb_lt|]. split.
  - destruct (idxStr info); [discriminate|reflexivity].
  - now apply negb_true_iff.
Qed.

Lemma zip_identity_usage nout cs :
  zip_with (fun c u => if hidden nout c then consumed nout c else u) cs
    (map (fun _ => zero_usage) cs)
  = map (identity_usage nout) cs.
Proof.
  induction cs as [|c rest IH]; [reflexivity|].
  simpl. rewrite IH. reflexivity.
Qed.

(** *** The planner on a feasible request, in closed form *)

Lemma fresh_buffer_length junk n : length (fresh_buffer junk n) = Z.to_nat n.
Proof. unfold fresh_buffer. now rewrite length_map, length_seq. Qed.

Lemma best_index_feasible m vt info :
  host_prepared vt info = true ->
  feasible (num_outputs vt) (aConstraint info) = true ->
  statement_vtab_best_index m vt info =
  (let nout := num_outputs vt in
   let cs := aConstraint info in
   let cols := hidden_columns nout cs in
   let info1 :=
     set_usage (set_plan_constants info) (map (identity_usage nout) cs) in
   if (Z.of_nat (length cols) =? 0)
      || ((col_bound cols <=? 64)
          && (mask cols =? required_cols (col_bound cols)))
   then (SQLITE_OK, info1)
   else match m with
        | None => (SQLITE_NOMEM, info1)
        | Some _ =>
            (SQLITE_OK,
             set_idxStr (set_usage info1 (dense_usage nout cs 0))
               (map (fun c => c + 1) cols))
        end).
Proof.
  intros Hp Hf.
  destruct (host_prepared_spec _ _ Hp) as (Hn & Hus & Hall & Hlen & _ & _).
  unfold statement_vtab_best_index.
  cbn [set_plan_constants aConstraint aConstraintUsage].
  destruct (scan_constraints_feasible (num_outputs vt) (aConstraint info)
              Hn Hall Hf [] (aConstraintUsage info)
              {| st_usage := aConstraintUsage info;
                 col_max := 0; used_cols := 0; out_constraints := 0 |})
    as (st' & Hscan & Hu & Hm & Hb & Ho);
    try reflexivity; try (cbn [out_constraints col_max]; lia).
  { rewrite Hus. apply length_map. }
  cbn [length] in Hscan. rewrite Hscan.
  cbn [col_max used_cols out_constraints app] in Hu, Hm, Hb, Ho.
  rewrite Hus, zip_identity_usage in Hu.
  pose proof (col_bound_nonneg
                (hidden_columns (num_outputs vt) (aConstraint info))) as Hnn.
  rewrite Z.max_r in Hm by assumption.
  rewrite Z.lor_0_l in Hb. rewrite Z.add_0_l in Ho.
  rewrite Hu, Hm, Hb, Ho. cbv zeta.
  destruct ((Z.of_nat _ =? 0) || _); [reflexivity|].
  destruct m as [junk|]; [|reflexivity].
  unfold nConstraint. cbn [set_usage aConstraint].
  pose proof (build_colmap_dense (num_outputs vt) (aConstraint info) [] []
                (fresh_buffer junk
                   (Z.of_nat (length (hidden_columns (num_outputs vt)
                                        (aConstraint info))))) 0) as Hmap.
  cbn [app length] in Hmap.
  change (aConstraint (set_plan_constants info)) with (aConstraint info).
  rewrite Hmap.
  - rewrite drop_ge by (rewrite fresh_buffer_length; lia).
    now rewrite app_nil_r.
  - reflexivity.
  - lia.
  - rewrite fresh_buffer_length. lia.
Qed.

(** A request that is scanned to the end is feasible. *)
Lemma best_index_cases m vt info :
  feasible (num_outputs vt) (aConstraint info) = false ->
  fst (statement_vtab_best_index m vt info) = SQLITE_CONSTRAINT
  /\ idxStr (snd (statement_vtab_best_index m vt info)) = idxStr info
  /\ needToFreeIdxStr (snd (statement_vtab_best_index m vt info))
     = needToFreeIdxStr info.
Proof.
  intros Hf. unfold statement_vtab_best_index.
  destruct (scan_constraints_infeasible _ _ Hf 0%nat
              {| st_usage := aConstraintUsage (set_plan_constants info);
                 col_max := 0; used_cols := 0; out_constraints := 0 |})
    as [st' Hscan].
  simpl in *. rewrite Hscan. repeat split; reflexivity.
Qed.

Lemma identity_usage_lookup nout (cs : list sqlite3_index_constraint) i c :
  cs !! i = Some c ->
  map (identity_usage nout) cs !! i = Some (identity_usage nout c).
Proof.
  revert i. induction cs as [|a rest IH]; intros [|i] Hc; try discriminate.
  - injection Hc as ->. reflexivity.
  - simpl in *. now apply IH.
Qed.

(** *** The identity order *)

(** C2. On a request whose predicates on hidden columns are all usable
    equalities and whose matched hidden-column indices are exactly the range
    [0..max_c] with [max_c + 1 <= 64], the planner returns [SQLITE_OK] with
    the identity order: the predicate on hidden column [c] gets argument
    position [c + 1] and is marked as not to be re-checked, and no index map
    is attached.  When there is no predicate on a hidden column at all, no
    entry gets an argument position. *)
Theorem best_index_identity_order
    (m : option (nat -> Z)) (vt : statement_vtab)
    (info : sqlite3_index_info) :
  host_prepared vt info = true ->
  feasible (num_outputs vt) (aConstraint info) = true ->
  contiguousb (hidden_columns (num_outputs vt) (aConstraint info)) = true ->
  col_bound (hidden_columns (num_outputs vt) (aConstraint info)) <= 64 ->
  fst (statement_vtab_best_index m vt info) = SQLITE_OK
  /\ idxStr (snd (statement_vtab_best_index m vt info)) = None
  /\ needToFreeIdxStr (snd (statement_vtab_best_index m vt info)) = false
  /\ (forall i c,
        aConstraint info !! i = Some c ->
        num_outputs vt <= iColumn c ->
        aConstraintUsage (snd (statement_vtab_best_index m vt info)) !! i
        = Some {| argvIndex := iColumn c - num_outputs vt + 1; omit := true |})
  /\ (hidden_columns (num_outputs vt) (aConstraint info) = [] ->
      forall u,
        In u (aConstraintUsage (snd (statement_vtab_best_index m vt info))) ->
        argvIndex u = 0).
Proof.
  intros Hp Hf Hc Hb.
  destruct (host_prepared_spec _ _ Hp) as (_ & _ & _ & _ & Hidx & Hfree).
  rewrite (best_index_feasible m vt info Hp Hf). cbv zeta.
  apply contiguousb_spec in Hc.
  apply (mask_contiguous _ (hidden_columns_nonneg _ _) Hb) in Hc.
  rewrite Hc. apply Z.leb_le in Hb. rewrite Hb, orb_true_r.
  cbn [fst snd set_usage set_plan_constants idxStr needToFreeIdxStr
       aConstraintUsage].
  repeat split; try assumption.
  - intros i c Hi Hcol. rewrite (identity_usage_lookup _ _ _ _ Hi).
    unfold identity_usage. apply hidden_spec in Hcol. now rewrite Hcol.
  - intros Hnone u Hin. apply in_map_iff in Hin.
    destruct Hin as (c & <- & Hin). unfold identity_usage.
    destruct (hidden (num_outputs vt) c) eqn:Hh; [|reflexivity].
    exfalso.
    assert (Hc' : In (iColumn c - num_outputs vt)
                    (hidden_columns (num_outputs vt) (aConstraint info))).
    { unfold hidden_columns.
      apply (in_map (fun c => iColumn c - num_outputs vt)).
      apply filter_In. now split. }
    rewrite Hnone in Hc'. destruct Hc'.
Qed.

(** Hidden columns 0, 1 and 2 of a relation with one output column, each
    with a usable equality, the middle one given first. *)
Lemma best_index_identity_order_witness :
  fst (statement_vtab_best_index None (relation 1 3)
         (request [equality_on 2; equality_on 1; equality_on 3]))
  = SQLITE_OK
  /\ idxStr (snd (statement_vtab_best_index None (relation 1 3)
                    (request [equality_on 2; equality_on 1; equality_on 3])))
     = None.
Proof.
  destruct (best_index_identity_order None (relation 1 3)
              (request [equality_on 2; equality_on 1; equality_on 3]))
    as (Hrc & Hidx & _); try reflexivity.
  - vm_compute. discriminate.
  - split; assumption.
Defined.

(** *** The index map *)

Lemma rank_cons nout c rest i :
  rank nout (c :: rest) (S i) =
  (if hidden nout c then 1 else 0) + rank nout rest i.
Proof.
  unfold rank. cbn [take List.filter].
  destruct (hidden nout c); cbn [length]; lia.
Qed.

Lemma dense_usage_lookup nout cs :
  forall argc i c,
    cs !! i = Some c ->
    dense_usage nout cs argc !! i
    = Some (if hidden nout c
            then {| argvIndex := argc + rank nout cs i + 1; omit := true |}
            else zero_usage).
Proof.
  induction cs as [|a rest IH]; intros argc [|i] c Hc; try discriminate.
  - injection Hc as ->. cbn [dense_usage].
    destruct (hidden nout c); [|reflexivity].
    unfold rank. cbn. now rewrite Z.add_0_r.
  - cbn in Hc. cbn [dense_usage]. rewrite rank_cons.
    destruct (hidden nout a); cbn [lookup list_lookup];
      rewrite (IH _ _ _ Hc); destruct (hidden nout c); try reflexivity;
      do 2 f_equal; lia.
Qed.

(** Which branch line 243 takes on a feasible request. *)
Lemma identity_test_false nout cs :
  contiguousb (hidden_columns nout cs) = false
  \/ 64 < col_bound (hidden_columns nout cs) ->
  (Z.of_nat (length (hidden_columns nout cs)) =? 0)
  || ((col_bound (hidden_columns nout cs) <=? 64)
      && (mask (hidden_columns nout cs)
          =? required_cols (col_bound (hidden_columns nout cs))))
  = false.
Proof.
  intros Hshape. apply orb_false_iff. split.
  - destruct (hidden_columns nout cs) eqn:Hcols.
    + destruct Hshape as [Hc|Hb]; [discriminate|]. simpl in Hb. lia.
    + apply Z.eqb_neq. simpl. lia.
  - destruct (Z.leb_spec (col_bound (hidden_columns nout cs)) 64) as [Hle|Hgt];
      [|reflexivity].
    destruct Hshape as [Hc|Hb]; [|lia]. cbn [andb].
    destruct (mask _ =? _) eqn:Hmask; [|reflexivity].
    apply (mask_contiguous _ (hidden_columns_nonneg _ _) Hle) in Hmask.
    apply contiguousb_spec in Hmask. congruence.
Qed.

(** C3, as the code has it. On a request whose predicates on hidden columns
    are all usable equalities and whose matched hidden-column indices are
    not exactly the range [0..max_c] (or reach beyond 64 columns), and when
    the map can be allocated, the planner returns [SQLITE_OK] and attaches an
    index map with one entry per consumed predicate: walking the predicates
    in order, entry [k] is the parameter index [c + 1] of the [k]-th
    predicate on a hidden column, and that predicate gets the argument
    position [k], counted from 1.  The order in which the columns come plays
    no part in the choice. *)
Theorem best_index_index_map
    (junk : nat -> Z) (vt : statement_vtab) (info : sqlite3_index_info) :
  host_prepared vt info = true ->
  feasible (num_outputs vt) (aConstraint info) = true ->
  contiguousb (hidden_columns (num_outputs vt) (aConstraint info)) = false
  \/ 64 < col_bound (hidden_columns (num_outputs vt) (aConstraint info)) ->
  fst (statement_vtab_best_index (Some junk) vt info) = SQLITE_OK
  /\ idxStr (snd (statement_vtab_best_index (Some junk) vt info))
     = Some (map (fun c => c + 1)
               (hidden_columns (num_outputs vt) (aConstraint info)))
  /\ needToFreeIdxStr (snd (statement_vtab_best_index (Some junk) vt info))
     = true
  /\ (forall i c,
        aConstraint info !! i = Some c ->
        num_outputs vt <= iColumn c ->
        aConstraintUsage (snd (statement_vtab_best_index (Some junk) vt info))
          !! i
        = Some {| argvIndex := rank (num_outputs vt) (aConstraint info) i + 1;
                  omit := true |}).
Proof.
  intros Hp Hf Hshape.
  rewrite (best_index_feasible (Some junk) vt info Hp Hf). cbv zeta.
  rewrite (identity_test_false _ _ Hshape).
  cbn [fst snd set_idxStr set_usage idxStr needToFreeIdxStr aConstraintUsage].
  repeat split.
  intros i c Hi Hcol. rewrite (dense_usage_lookup _ _ _ _ _ Hi).
  apply hidden_spec in Hcol. rewrite Hcol. now rewrite Z.add_0_l.
Qed.

(** Hidden columns 0 and 2 with equalities, column 1 free: the map has two
    entries, argument 1 for parameter 1 and argument 2 for parameter 3. *)
Lemma best_index_index_map_witness :
  idxStr (snd (statement_vtab_best_index (Some (fun _ => 0)) (relation 1 3)
                 (request [equality_on 1; equality_on 3])))
  = Some [1; 3]
  /\ map argvIndex
       (aConstraintUsage
          (snd (statement_vtab_best_index (Some (fun _ => 0)) (relation 1 3)
                  (request [equality_on 1; equality_on 3]))))
     = [1; 2].
Proof.
  destruct (best_index_index_map (fun _ => 0) (relation 1 3)
              (request [equality_on 1; equality_on 3]))
    as (_ & Hidx & _); try reflexivity.
  - left. reflexivity.
  - split; [exact Hidx|reflexivity].
Defined.

(** Hidden columns 1 and 0, in this order, are out of order and yet the
    planner attaches no index map: it keeps the identity order, with
    argument positions 2 and 1. *)
Lemma best_index_out_of_order_keeps_identity :
  hidden_columns 1 (aConstraint (request [equality_on 2; equality_on 1]))
  = [1; 0]
  /\ ascendingb [1; 0] = false
  /\ statement_vtab_best_index (Some (fun _ => 0)) (relation 1 2)
       (request [equality_on 2; equality_on 1])
     = (SQLITE_OK,
        {| aConstraint := [equality_on 2; equality_on 1];
           aConstraintUsage :=
             [{| argvIndex := 2; omit := true |};
              {| argvIndex := 1; omit := true |}];
           idxStr := None;
           needToFreeIdxStr := false;
           orderByConsumed := false;
           estimatedCost := 1;
           estimatedRows := 1 |}).
Proof. repeat split. Qed.

(** *** Predicates on output columns *)

Lemma filter_hidden_idem nout cs :
  List.filter (hidden nout) (List.filter (hidden nout) cs)
  = List.filter (hidden nout) cs.
Proof.
  induction cs as [|c rest IH]; [reflexivity|].
  simpl. destruct (hidden nout c) eqn:Hh; [|exact IH].
  simpl. now rewrite Hh, IH.
Qed.

Lemma hidden_columns_filter nout cs :
  hidden_columns nout (List.filter (hidden nout) cs) = hidden_columns nout cs.
Proof. unfold hidden_columns. now rewrite filter_hidden_idem. Qed.

Lemma feasible_filter nout cs :
  feasible nout (List.filter (hidden nout) cs) = feasible nout cs.
Proof.
  unfold feasible. induction cs as [|c rest IH]; [reflexivity|].
  simpl. destruct (hidden nout c) eqn:Hh; simpl; now rewrite ?Hh, IH.
Qed.

Lemma hidden_usage_zero nout cs :
  hidden_usage nout cs (map (fun _ => zero_usage) cs)
  = map (fun _ => zero_usage) (List.filter (hidden nout) cs).
Proof.
  induction cs as [|c rest IH]; [reflexivity|].
  simpl. destruct (hidden nout c); simpl; now rewrite IH.
Qed.

Lemma hidden_usage_identity nout cs :
  hidden_usage nout cs (map (identity_usage nout) cs)
  = map (identity_usage nout) (List.filter (hidden nout) cs).
Proof.
  induction cs as [|c rest IH]; [reflexivity|].
  simpl. destruct (hidden nout c); simpl; now rewrite IH.
Qed.

Lemma hidden_usage_dense nout cs :
  forall argc,
    hidden_usage nout cs (dense_usage nout cs argc)
    = dense_usage nout (List.filter (hidden nout) cs) argc.
Proof.
  induction cs as [|c rest IH]; intros argc; [reflexivity|].
  simpl. destruct (hidden nout c) eqn:Hh; simpl; now rewrite ?Hh, IH.
Qed.

Lemma host_prepared_hidden_only vt info :
  host_prepared vt info = true ->
  host_prepared vt (hidden_only (num_outputs vt) info) = true.
Proof.
  intros Hp.
  destruct (host_prepared_spec _ _ Hp) as (Hn & Hus & Hall & Hlen & Hidx & Hfr).
  unfold host_prepared, hidden_only.
  cbn [aConstraint aConstraintUsage idxStr needToFreeIdxStr].
  rewrite Hidx, Hfr.
  repeat (apply andb_true_iff; split); try reflexivity.
  - now apply Z.leb_le.
  - apply Nat.eqb_eq. apply length_map.
  - apply forallb_forall. intros u Hin. apply in_map_iff in Hin.
    now destruct Hin as (? & <- & _).
  - apply forallb_forall. intros c Hin. apply filter_In in Hin.
    destruct Hin as [Hin _]. rewrite List.Forall_forall in Hall.
    specialize (Hall c Hin). apply andb_true_iff.
    split; [apply Z.leb_le|apply Z.ltb_lt]; lia.
  - apply Z.ltb_lt.
    pose proof (List.filter_length_le (hidden (num_outputs vt))
                  (aConstraint info)). lia.
Qed.

(** The writes of the first loop on the whole request and on the request
    without its output-column predicates, side by side. *)
Lemma scan_hidden_only nout cs :
  forall pre pre' us st st',
    length us = length cs ->
    st_usage st = pre ++ us ->
    st_usage st' = pre' ++ hidden_usage nout cs us ->
    exists us2,
      length us2 = length cs
      /\ st_usage (state_of (scan_constraints nout cs (length pre) st))
         = pre ++ us2
      /\ st_usage
           (state_of (scan_constraints nout (List.filter (hidden nout) cs)
                        (length pre') st'))
         = pre' ++ hidden_usage nout cs us2
      /\ (forall i c, cs !! i = Some c -> hidden nout c = false ->
                      us2 !! i = us !! i).
Proof.
  induction cs as [|c rest IH]; intros pre pre' us st st' Hlen Hst Hst'.
  - destruct us; [|discriminate]. exists []. simpl in *.
    repeat split; try assumption.
    all: try (intros [|i] c Hc; discriminate).
  - destruct us as [|u us']; [discriminate|].
    simpl in Hlen. injection Hlen as Hlen.
    cbn [hidden_usage] in Hst'. cbn [List.filter scan_constraints].
    destruct (hidden nout c) eqn:Hh.
    + pose proof Hh as Hcol. unfold hidden in Hcol.
      apply negb_true_iff in Hcol.
      cbn [scan_constraints]. rewrite Hcol.
      destruct (negb (usable c) || negb (op c =? SQLITE_INDEX_CONSTRAINT_EQ)).
      * exists (u :: us'). cbn [state_of hidden_usage]. rewrite Hh.
        repeat split; try assumption. simpl. now rewrite Hlen.
      * set (new := {| argvIndex := int_add (int_sub (iColumn c) nout) 1;
                       omit := true |}).
        match goal with
        | |- context [scan_constraints nout rest (S (length pre)) ?s] =>
            set (st1 := s)
        end.
        match goal with
        | |- context [scan_constraints nout (List.filter (hidden nout) rest)
                        (S (length pre')) ?s] =>
            set (st1' := s)
        end.
        destruct (IH (pre ++ [new]) (pre' ++ [new]) us' st1 st1' Hlen)
          as (us2 & Hl2 & Hs & Hs' & Hout).
        { subst st1. cbn [st_usage]. rewrite Hst, <- app_assoc.
          rewrite insert_app_r_alt by lia. now rewrite Nat.sub_diag. }
        { subst st1'. cbn [st_usage]. rewrite Hst', <- app_assoc.
          rewrite insert_app_r_alt by lia. now rewrite Nat.sub_diag. }
        exists (new :: us2). cbn [hidden_usage]. rewrite Hh.
        rewrite !length_app in Hs, Hs'. cbn [length] in Hs, Hs'.
        rewrite !Nat.add_1_r in Hs, Hs'.
        rewrite Hs, Hs', <- !app_assoc.
        repeat split; [simpl; now rewrite Hl2|].
        intros [|i] c' Hc' Hh'.
        -- injection Hc' as ->. congruence.
        -- simpl in *. now apply (Hout i c').
    + pose proof Hh as Hcol. unfold hidden in Hcol.
      apply negb_false_iff in Hcol. rewrite Hcol.
      destruct (IH (pre ++ [u]) pre' us' st st' Hlen)
        as (us2 & Hl2 & Hs & Hs' & Hout); try assumption.
      { now rewrite <- app_assoc. }
      exists (u :: us2). cbn [hidden_usage]. rewrite Hh.
      rewrite length_app in Hs. cbn [length] in Hs.
      rewrite Nat.add_1_r in Hs. rewrite Hs, Hs', <- app_assoc.
      repeat split; [simpl; now rewrite Hl2|].
      intros [|i] c' Hc' Hh'; [reflexivity|].
      simpl in *. now apply (Hout i c').
Qed.

(** C9. Predicates on output columns are ignored: whatever the planner
    returns, their usage entries keep argument position 0 and an unset omit
    flag; and the return code (feasible or not), the attached index map
    (identity order or explicit map) and the usage entries of the
    hidden-column predicates are the same as for the request with the
    output-column predicates left out. *)
Theorem best_index_ignores_output_predicates
    (m : option (nat -> Z)) (vt : statement_vtab)
    (info : sqlite3_index_info) :
  host_prepared vt info = true ->
  (forall i c,
     aConstraint info !! i = Some c ->
     iColumn c < num_outputs vt ->
     aConstraintUsage (snd (statement_vtab_best_index m vt info)) !! i
     = Some {| argvIndex := 0; omit := false |})
  /\ fst (statement_vtab_best_index m vt info)
     = fst (statement_vtab_best_index m vt (hidden_only (num_outputs vt) info))
  /\ idxStr (snd (statement_vtab_best_index m vt info))
     = idxStr (snd (statement_vtab_best_index m vt
                      (hidden_only (num_outputs vt) info)))
  /\ hidden_usage (num_outputs vt) (aConstraint info)
       (aConstraintUsage (snd (statement_vtab_best_index m vt info)))
     = aConstraintUsage
         (snd (statement_vtab_best_index m vt
                 (hidden_only (num_outputs vt) info))).
Proof.
  intros Hp. pose proof (host_prepared_hidden_only _ _ Hp) as Hp'.
  destruct (host_prepared_spec _ _ Hp) as (_ & Hus & _).
  destruct (feasible (num_outputs vt) (aConstraint info)) eqn:Hf.
  - assert (Hf' : feasible (num_outputs vt)
                    (aConstraint (hidden_only (num_outputs vt) info)) = true).
    { cbn [hidden_only aConstraint]. now rewrite feasible_filter. }
    rewrite (best_index_feasible m vt info Hp Hf).
    rewrite (best_index_feasible m vt _ Hp' Hf'). cbv zeta.
    cbn [hidden_only aConstraint]. rewrite hidden_columns_filter.
    destruct ((Z.of_nat _ =? 0) || _); [|destruct m].
    all: cbn [fst snd set_idxStr set_usage set_plan_constants idxStr
              needToFreeIdxStr aConstraintUsage].
    all: repeat split.
    all: try apply hidden_usage_identity; try apply hidden_usage_dense.
    all: intros i c Hi Hcol; apply hidden_false in Hcol.
    + rewrite (identity_usage_lookup _ _ _ _ Hi).
      unfold identity_usage. now rewrite Hcol.
    + rewrite (dense_usage_lookup _ _ _ _ _ Hi). now rewrite Hcol.
    + rewrite (identity_usage_lookup _ _ _ _ Hi).
      unfold identity_usage. now rewrite Hcol.
  - assert (Hf' : feasible (num_outputs vt)
                    (aConstraint (hidden_only (num_outputs vt) info)) = false).
    { cbn [hidden_only aConstraint]. now rewrite feasible_filter. }
    destruct (best_index_cases m vt info Hf) as (Hrc & Hidx & _).
    destruct (best_index_cases m vt _ Hf') as (Hrc' & Hidx' & _).
    rewrite Hrc, Hrc', Hidx, Hidx'.
    destruct (scan_hidden_only (num_outputs vt) (aConstraint info) [] []
                (aConstraintUsage info)
                {| st_usage := aConstraintUsage info;
                   col_max := 0; used_cols := 0; out_constraints := 0 |}
                {| st_usage :=
                     map (fun _ => zero_usage)
                       (List.filter (hidden (num_outputs vt))
                          (aConstraint info));
                   col_max := 0; used_cols := 0; out_constraints := 0 |})
      as (us2 & Hl2 & Hs & Hs' & Hout).
    { rewrite Hus. apply length_map. }
    { reflexivity. }
    { cbn [st_usage app]. rewrite Hus at 1. now rewrite hidden_usage_zero. }
    cbn [length app] in Hs, Hs'.
    unfold statement_vtab_best_index.
    cbn [set_plan_constants hidden_only aConstraint aConstraintUsage].
    destruct (scan_constraints_infeasible _ _ Hf 0%nat
                {| st_usage := aConstraintUsage info;
                   col_max := 0; used_cols := 0; out_constraints := 0 |})
      as [s Hscan].
    rewrite <- feasible_filter in Hf.
    destruct (scan_constraints_infeasible _ _ Hf 0%nat
                {| st_usage :=
                     map (fun _ => zero_usage)
                       (List.filter (hidden (num_outputs vt))
                          (aConstraint info));
                   col_max := 0; used_cols := 0; out_constraints := 0 |})
      as [s' Hscan'].
    rewrite Hscan in Hs |- *. rewrite Hscan' in Hs' |- *.
    cbn [state_of] in Hs, Hs'.
    cbn [snd set_usage aConstraintUsage]. rewrite Hs, Hs'.
    repeat split.
    intros i c Hi Hcol. apply hidden_false in Hcol.
    rewrite (Hout i c Hi Hcol), Hus.
    clear - Hi. revert i Hi.
    induction (aConstraint info) as [|a rest IH]; intros [|i] Hi;
      try discriminate; [reflexivity|].
    simpl in *. now apply IH.
Qed.

(** A request with an equality on hidden column 0, a usable inequality on
    output column 0 and an unusable predicate on the row id. *)
Lemma best_index_ignores_output_predicates_witness :
  map argvIndex
    (aConstraintUsage
       (snd (statement_vtab_best_index None (relation 1 1)
               (request [ {| iColumn := 0; op := 4; usable := true |};
                          equality_on 1;
                          {| iColumn := -1; op := 2; usable := false |} ]))))
  = [0; 1; 0]
  /\ fst (statement_vtab_best_index None (relation 1 1)
            (request [ {| iColumn := 0; op := 4; usable := true |};
                       equality_on 1;
                       {| iColumn := -1; op := 2; usable := false |} ]))
     = fst (statement_vtab_best_index None (relation 1 1)
              (request [equality_on 1])).
Proof.
  destruct (best_index_ignores_output_predicates None (relation 1 1)
              (request [ {| iColumn := 0; op := 4; usable := true |};
                         equality_on 1;
                         {| iColumn := -1; op := 2; usable := false |} ]))
    as (_ & Hrc & _); [reflexivity|].
  split; [reflexivity|exact Hrc].
Defined.

End PlannerProofs.

(** ** The cursor *)

Module CursorProofs.
Import Cursor.

Section WithService.

Context {statement : Type} `{StatementService statement}.

Lemma next_keeps_arguments (cur : statement_cursor statement) :
  param_argc (snd (statement_vtab_next cur)) = param_argc cur
  /\ param_argv (snd (statement_vtab_next cur)) = param_argv cur.
Proof.
  unfold statement_vtab_next.
  destruct (sqlite3_step (stmt cur)) as [ret s].
  destruct (ret =? SQLITE_ROW); split; reflexivity.
Qed.

Lemma advance_keeps_arguments n :
  forall cur : statement_cursor statement,
    param_argc (advance n cur) = param_argc cur
    /\ param_argv (advance n cur) = param_argv cur.
Proof.
  induction n as [|n IH]; intros cur; [split; reflexivity|].
  cbn [advance]. destruct (IH (snd (statement_vtab_next cur))) as [-> ->].
  apply next_keeps_arguments.
Qed.

(** A successful bind captures the argument vector. *)
Lemma filter_captures_arguments vt (cur cur1 : statement_cursor statement)
    idxNum idxStr argv :
  statement_vtab_filter vt cur idxNum idxStr argv = Returns SQLITE_OK cur1 ->
  param_argc cur1 = Z.of_nat (length argv)
  /\ (forall k, (k < length argv)%nat -> param_argv cur1 !! k = argv !! k).
Proof.
  unfold statement_vtab_filter. cbn [stmt].
  destruct (bind_arguments _ idxStr argv 0) as [ret s].
  destruct (Z.eqb_spec ret SQLITE_OK) as [->|Hret]; cbn [negb].
  2: { intros Heq. injection Heq as Heq _. contradiction. }
  pose proof (sqlite3_step_not_ok s) as Hstep.
  destruct (sqlite3_step s) as [ret s']. cbn [fst] in Hstep.
  destruct ((ret =? SQLITE_ROW) || (ret =? SQLITE_DONE)); cbn [negb].
  2: { intros Heq. injection Heq as Heq _. contradiction. }
  destruct (num_inputs vt >=? Z.of_nat (length argv)); cbn [negb];
    [|discriminate].
  intros Heq. injection Heq as <-. cbn [param_argc param_argv].
  split; [reflexivity|]. intros k Hk.
  destruct (Z.eqb_spec (Z.of_nat (length argv)) 0) as [Hz|_]; [lia|].
  unfold memcpy. now rewrite lookup_app_l.
Qed.

(** C4. After a bind that returned [SQLITE_OK] for the argument vector
    [argv], and after any number of advances, reading column [i] returns
    [SQLITE_OK] and: for [i < num_outputs] the statement's current-row value
    at position [i]; for [i - num_outputs < argc] the bound value
    [argv[i - num_outputs]], the same on every row; and otherwise leaves the
    result as the host prepared it, which is SQL NULL. *)
Theorem column_reads_outputs_then_bound_inputs
    (vt : statement_vtab) (cur cur1 : statement_cursor statement)
    (idxNum : Z) (idxStr : option (list Z)) (argv : list sqlite3_value)
    (n : nat) (ctx : sqlite3_context) (i : Z) :
  statement_vtab_filter vt cur idxNum idxStr argv = Returns SQLITE_OK cur1 ->
  0 <= num_outputs vt ->
  i <= INT_MAX ->
  (i < num_outputs vt ->
   statement_vtab_column vt (advance n cur1) ctx i
   = (SQLITE_OK,
      sqlite3_result_value ctx
        (sqlite3_column_value (stmt (advance n cur1)) i)))
  /\ (num_outputs vt <= i ->
      i - num_outputs vt < Z.of_nat (length argv) ->
      exists v,
        argv !! Z.to_nat (i - num_outputs vt) = Some v
        /\ statement_vtab_column vt (advance n cur1) ctx i
           = (SQLITE_OK, sqlite3_result_value ctx v))
  /\ (num_outputs vt <= i ->
      Z.of_nat (length argv) <= i - num_outputs vt ->
      statement_vtab_column vt (advance n cur1) ctx i = (SQLITE_OK, ctx)
      /\ result (snd (statement_vtab_column vt (advance n cur1) new_context i))
         = SqlNull).
Proof.
  intros Hfilter Hnout Hi.
  destruct (filter_captures_arguments _ _ _ _ _ _ Hfilter) as [Hargc Hargv].
  destruct (advance_keeps_arguments n cur1) as [Hc Hv].
  unfold statement_vtab_column. rewrite Hc, Hv, Hargc.
  split; [|split].
  - intros Hlt. apply Z.ltb_lt in Hlt. now rewrite Hlt.
  - intros Hge Hlt.
    destruct (Z.ltb_spec i (num_outputs vt)) as [|_]; [lia|].
    rewrite int_sub_small by (unfold INT_MAX in *; lia).
    apply Z.ltb_lt in Hlt. rewrite Hlt. apply Z.ltb_lt in Hlt.
    assert (Hk : (Z.to_nat (i - num_outputs vt) < length argv)%nat) by lia.
    rewrite (Hargv _ Hk).
    destruct (lookup_lt_is_Some_2 argv _ Hk) as [v Hv'].
    exists v. now rewrite Hv'.
  - intros Hge Hle.
    destruct (Z.ltb_spec i (num_outputs vt)) as [|_]; [lia|].
    rewrite int_sub_small by (unfold INT_MAX in *; lia).
    apply Z.ltb_ge in Hle. rewrite Hle. split; reflexivity.
Qed.

(** *** Row identity *)

Lemma filter_sets_rowid vt (cur cur1 : statement_cursor statement)
    idxNum idxStr argv rc :
  statement_vtab_filter vt cur idxNum idxStr argv = Returns rc cur1 ->
  rowid cur1 = 1.
Proof.
  unfold statement_vtab_filter. cbn [stmt].
  destruct (bind_arguments _ idxStr argv 0) as [ret s].
  destruct (negb (ret =? SQLITE_OK)).
  { intros Heq. injection Heq as _ <-. reflexivity. }
  destruct (sqlite3_step s) as [ret' s'].
  destruct (negb ((ret' =? SQLITE_ROW) || (ret' =? SQLITE_DONE))).
  { intros Heq. injection Heq as _ <-. reflexivity. }
  destruct (negb (num_inputs vt >=? Z.of_nat (length argv))); [discriminate|].
  intros Heq. injection Heq as _ <-. reflexivity.
Qed.

Lemma next_rowid_row (cur : statement_cursor statement) :
  fst (sqlite3_step (stmt cur)) = SQLITE_ROW ->
  fst (statement_vtab_next cur) = SQLITE_OK
  /\ rowid (snd (statement_vtab_next cur)) = int_add (rowid cur) 1.
Proof.
  unfold statement_vtab_next.
  destruct (sqlite3_step (stmt cur)) as [ret s]. cbn [fst].
  intros ->. split; reflexivity.
Qed.

Lemma next_rowid_no_row (cur : statement_cursor statement) :
  fst (sqlite3_step (stmt cur)) <> SQLITE_ROW ->
  rowid (snd (statement_vtab_next cur)) = rowid cur.
Proof.
  unfold statement_vtab_next.
  destruct (sqlite3_step (stmt cur)) as [ret s]. cbn [fst].
  intros Hret. apply Z.eqb_neq in Hret. now rewrite Hret.
Qed.

Lemma advance_rowid n :
  forall cur : statement_cursor statement,
    0 <= rowid cur ->
    rowid cur + Z.of_nat n <= INT_MAX ->
    rows_follow n cur ->
    rowid (advance n cur) = rowid cur + Z.of_nat n.
Proof.
  induction n as [|n IH]; intros cur Hlo Hhi Hrows.
  - cbn [advance]. lia.
  - cbn [advance rows_follow] in *. destruct Hrows as [Hrow Hrows].
    destruct (next_rowid_row cur Hrow) as [_ Hid].
    rewrite int_add_small in Hid by (unfold INT_MAX in *; lia).
    rewrite IH; rewrite ?Hid; try assumption; lia.
Qed.

(** C5, as the code has it. A bind sets the row id to 1 before its first
    execution step and leaves it at 1 whether or not that step produces a
    row; each advance that produces a row increases it by exactly 1 (as long
    as the count fits a C [int]), so that it is [1 + n] after [n] further
    rows; an advance that produces no row leaves it unchanged. *)
Theorem rowid_counts_rows_from_one
    (vt : statement_vtab) (cur cur1 : statement_cursor statement)
    (idxNum : Z) (idxStr : option (list Z)) (argv : list sqlite3_value)
    (rc : Z) :
  statement_vtab_filter vt cur idxNum idxStr argv = Returns rc cur1 ->
  rowid cur1 = 1
  /\ (forall n,
        Z.of_nat n < INT_MAX ->
        rows_follow n cur1 ->
        rowid (advance n cur1) = 1 + Z.of_nat n)
  /\ (forall c : statement_cursor statement,
        fst (sqlite3_step (stmt c)) <> SQLITE_ROW ->
        rowid (snd (statement_vtab_next c)) = rowid c).
Proof.
  intros Hfilter. pose proof (filter_sets_rowid _ _ _ _ _ _ _ Hfilter) as H1.
  split; [exact H1|]. split.
  - intros n Hn Hrows. rewrite advance_rowid; rewrite ?H1; try assumption; lia.
  - apply next_rowid_no_row.
Qed.

End WithService.

(** *** The cursor on a concrete table *)

(** One output column, one input column, one row: after the bind, column 1
    reads back the bound value. *)
Lemma column_reads_witness :
  exists v,
    [SqlInteger 1] !! Z.to_nat (1 - num_outputs (Plan.relation 1 1)) = Some v
    /\ statement_vtab_column (Plan.relation 1 1)
         (advance 0
            {| stmt :=
                 {| pending := [];
                    current := Some [SqlText "a"];
                    bindings := [(1, SqlInteger 1)] |};
               rowid := 1; param_argc := 1;
               param_argv := [SqlInteger 1] |})
         new_context 1
       = (SQLITE_OK, sqlite3_result_value new_context v).
Proof.
  destruct (column_reads_outputs_then_bound_inputs (Plan.relation 1 1)
              (cursor_over [[SqlText "a"]] 0 [SqlNull])
              {| stmt :=
                   {| pending := [];
                      current := Some [SqlText "a"];
                      bindings := [(1, SqlInteger 1)] |};
                 rowid := 1; param_argc := 1;
                 param_argv := [SqlInteger 1] |}
              0 None [SqlInteger 1] 0 new_context 1)
    as (_ & Hbound & _).
  - reflexivity.
  - simpl. lia.
  - unfold INT_MAX. lia.
  - apply Hbound; simpl; lia.
Defined.

(** A scan over three rows: the row id is 3 on the third row. *)
Lemma rowid_counts_rows_witness :
  rowid
    (advance 2
       {| stmt :=
            {| pending := [[SqlInteger 8]; [SqlInteger 9]];
               current := Some [SqlInteger 7];
               bindings := [] |};
          rowid := 1; param_argc := 0; param_argv := [] |})
  = 1 + Z.of_nat 2.
Proof.
  destruct (rowid_counts_rows_from_one (Plan.relation 1 0)
              (cursor_over [[SqlInteger 7]; [SqlInteger 8]; [SqlInteger 9]]
                 55 [])
              {| stmt :=
                   {| pending := [[SqlInteger 8]; [SqlInteger 9]];
                      current := Some [SqlInteger 7];
                      bindings := [] |};
                 rowid := 1; param_argc := 0; param_argv := [] |}
              0 None [] SQLITE_OK)
    as (_ & Hrows & _).
  - reflexivity.
  - apply Hrows.
    + unfold INT_MAX. simpl. lia.
    + simpl. auto.
Defined.

(** A scan that finds no row: the cursor is at its end right after the
    bind, no row was ever produced, and the row id is 1, not 0. *)
Lemma filter_without_row_sets_rowid :
  statement_vtab_filter (Plan.relation 1 0) (cursor_over [] 0 []) 0 None []
  = Returns SQLITE_OK
      {| stmt := {| pending := []; current := None; bindings := [] |};
         rowid := 1; param_argc := 0; param_argv := [] |}
  /\ statement_vtab_eof
       {| stmt := {| pending := []; current := None; bindings := [] |};
          rowid := 1; param_argc := 0; param_argv := [] |}
     = true
  /\ rowid
       {| stmt := {| pending := []; current := None; bindings := [] |};
          rowid := 1; param_argc := 0; param_argv := [] |}
     <> 0.
Proof. repeat split. discriminate. Qed.

End CursorProofs.

(** ** Schema derivation and relation creation *)

Module SchemaProofs.
Import Schema Columns.

(** *** Strings *)

Lemma append_assoc (a b c : string) :
  ((a ++ b) ++ c = a ++ (b ++ c))%string.
Proof. induction a as [|x a IH]; simpl; [reflexivity|now rewrite IH]. Qed.

Lemma append_empty_r (a : string) : (a ++ EmptyString)%string = a.
Proof. induction a as [|x a IH]; simpl; [reflexivity|now rewrite IH]. Qed.

Lemma length_append (a b : string) :
  String.length (a ++ b)%string = (String.length a + String.length b)%nat.
Proof. induction a as [|x a IH]; simpl; [reflexivity|now rewrite IH]. Qed.

Lemma get_append_end (a : string) (c : ascii) (r : string) :
  String.get (String.length a) (a ++ String c r)%string = Some c.
Proof. induction a as [|x a IH]; simpl; [reflexivity|exact IH]. Qed.

Lemma substring_prefix (a r : string) :
  String.substring 0 (String.length a) (a ++ r)%string = a.
Proof.
  induction a as [|x a IH]; simpl.
  - now destruct r.
  - now rewrite IH.
Qed.

(** A string that ends in [c] is its beginning followed by [c]. *)
Lemma string_last (r : string) (c : ascii) :
  r <> EmptyString ->
  String.get (String.length r - 1) r = Some c ->
  r = (String.substring 0 (String.length r - 1) r
       ++ String c EmptyString)%string.
Proof.
  induction r as [|x r IH]; [congruence|]. intros _ Hget.
  destruct r as [|y r].
  - simpl in *. now injection Hget as ->.
  - cbn [String.length] in *.
    replace (S (S (String.length r)) - 1)%nat with (S (String.length r))
      in * by lia.
    cbn [String.get String.substring append] in *. f_equal.
    replace (String.length r) with (S (String.length r) - 1)%nat at 1 by lia.
    apply IH; [discriminate|].
    replace (S (String.length r) - 1)%nat with (String.length r) by lia.
    exact Hget.
Qed.

(** Decimal numerals contain no quote. *)
Lemma double_quotes_uint d :
  double_quotes (NilEmpty.string_of_uint d) = NilEmpty.string_of_uint d.
Proof. induction d; simpl; now rewrite ?IHd. Qed.

Lemma double_quotes_format_d z : double_quotes (format_d z) = format_d z.
Proof.
  unfold format_d, NilZero.string_of_int, NilZero.string_of_uint.
  destruct (Z.to_int z) as [d|d]; destruct d; simpl;
    now rewrite ?double_quotes_uint.
Qed.

(** *** The two loops of [build_create_statement] *)

Lemma column_at s pre c rest :
  columns s = pre ++ c :: rest ->
  sqlite3_column_name s (Z.of_nat (length pre)) = fst c
  /\ sqlite3_column_decltype s (Z.of_nat (length pre)) = snd c.
Proof.
  intros Hcols. unfold sqlite3_column_name, sqlite3_column_decltype.
  destruct (Z.ltb_spec (Z.of_nat (length pre)) 0) as [|_]; [lia|].
  rewrite Nat2Z.id, Hcols, list_lookup_middle by reflexivity.
  now destruct c.
Qed.

Lemma parameter_at s pre p rest :
  parameters s = pre ++ p :: rest ->
  sqlite3_bind_parameter_name s (Z.of_nat (length pre) + 1) = p.
Proof.
  intros Hps. unfold sqlite3_bind_parameter_name.
  destruct (Z.ltb_spec (Z.of_nat (length pre) + 1) 1) as [|_]; [lia|].
  replace (Z.of_nat (length pre) + 1 - 1) with (Z.of_nat (length pre)) by lia.
  now rewrite Nat2Z.id, Hps, list_lookup_middle by reflexivity.
Qed.

Lemma append_outputs_spec s cols :
  forall pre text,
    columns s = pre ++ cols ->
    Z.of_nat (length pre + length cols) <= INT_MAX ->
    append_outputs s (length cols) (Z.of_nat (length pre)) text
    = match output_columns cols with
      | Some outs => Some (text ++ columns_text outs)%string
      | None => None
      end.
Proof.
  induction cols as [|c rest IH]; intros pre text Hcols Hfit.
  - simpl. now rewrite append_empty_r.
  - cbn [length append_outputs].
    destruct (column_at _ _ _ _ Hcols) as [-> ->].
    destruct c as [[name|] type]; cbn [fst snd output_columns];
      [|reflexivity].
    cbn [length] in Hfit.
    rewrite int_add_small by (unfold INT_MAX in *; lia).
    replace (Z.of_nat (length pre) + 1)
      with (Z.of_nat (length (pre ++ [(Some name, type)])))
      by (rewrite length_app; simpl; lia).
    rewrite IH.
    + destruct (output_columns rest) as [outs|]; [|reflexivity].
      cbn [columns_text]. unfold column_text.
      cbn [column_role column_name declared_type].
      now rewrite !append_assoc.
    + now rewrite <- app_assoc.
    + rewrite length_app. simpl. lia.
Qed.

Lemma append_inputs_spec s ps :
  forall pre text,
    parameters s = pre ++ ps ->
    Z.of_nat (length pre + length ps) <= INT_MAX ->
    append_inputs s (length ps) (Z.of_nat (length pre)) text
    = (text ++ columns_text (input_columns ps (Z.of_nat (length pre) + 1)))
      %string.
Proof.
  induction ps as [|p rest IH]; intros pre text Hps Hfit.
  - simpl. now rewrite append_empty_r.
  - cbn [length append_inputs input_columns columns_text].
    cbn [length] in Hfit.
    rewrite !int_add_small by (unfold INT_MAX in *; lia).
    rewrite (parameter_at _ _ _ _ Hps).
    replace (Z.of_nat (length pre) + 1)
      with (Z.of_nat (length (pre ++ [p])))
      by (rewrite length_app; simpl; lia).
    rewrite IH.
    + replace (Z.of_nat (length (pre ++ [p])))
        with (Z.of_nat (length pre) + 1)
        by (rewrite length_app; simpl; lia).
      unfold column_text, input_column.
      cbn [column_role column_name declared_type].
      destruct p as [name|].
      * now rewrite !append_assoc.
      * unfold format_Q. rewrite double_quotes_format_d.
        now rewrite !append_assoc.
    + now rewrite <- app_assoc.
    + rewrite length_app. simpl. lia.
Qed.

Lemma columns_text_app a b :
  columns_text (a ++ b) = (columns_text a ++ columns_text b)%string.
Proof.
  induction a as [|c a IH]; [reflexivity|].
  simpl. now rewrite IH, append_assoc.
Qed.

(** [build_create_statement] writes the declaration of the derived schema,
    and returns a null pointer when there is none or when the text could
    not be allocated. *)
Lemma build_create_statement_spec str_ok s :
  sqlite3_column_count s <= INT_MAX ->
  sqlite3_bind_parameter_count s <= INT_MAX ->
  build_create_statement str_ok s
  = match derived_schema s with
    | Some cols => if str_ok then Some (declaration cols) else None
    | None => None
    end.
Proof.
  unfold sqlite3_column_count, sqlite3_bind_parameter_count.
  intros Hc Hp. unfold build_create_statement, derived_schema.
  unfold sqlite3_column_count, sqlite3_bind_parameter_count.
  rewrite !Nat2Z.id.
  rewrite (append_outputs_spec s (columns s) [] _ eq_refl) by (simpl; lia).
  destruct (output_columns (columns s)) as [outs|]; [|reflexivity].
  rewrite (append_inputs_spec s (parameters s) [] _ eq_refl) by (simpl; lia).
  destruct str_ok; [|reflexivity].
  unfold declaration. cbn [length Z.of_nat Z.add].
  now rewrite columns_text_app, append_assoc.
Qed.

Lemma output_columns_lookup cols :
  forall outs,
    output_columns cols = Some outs ->
    length outs = length cols
    /\ (forall i name type,
          cols !! i = Some (Some name, type) ->
          outs !! i = Some {| column_name := name; declared_type := type;
                              column_role := Output |}).
Proof.
  induction cols as [|[[name|] type] rest IH]; intros outs Houts;
    simpl in Houts; try discriminate.
  - injection Houts as <-. split; [reflexivity|]. intros [|i]; discriminate.
  - destruct (output_columns rest) as [outs'|]; [|discriminate].
    injection Houts as <-. destruct (IH _ eq_refl) as [Hlen Hget].
    split; [simpl; now rewrite Hlen|].
    intros [|i] name' type' Hi; simpl in *.
    + now injection Hi as -> ->.
    + now apply Hget.
Qed.

Lemma input_columns_lookup ps :
  forall position,
    length (input_columns ps position) = length ps
    /\ (forall j p,
          ps !! j = Some p ->
          input_columns ps position !! j
          = Some (input_column (position + Z.of_nat j) p)).
Proof.
  induction ps as [|p rest IH]; intros position.
  - split; [reflexivity|]. intros [|j]; discriminate.
  - destruct (IH (position + 1)) as [Hlen Hget].
    split; [simpl; now rewrite Hlen|].
    intros [|j] p' Hj; simpl in *.
    + injection Hj as ->. now rewrite Z.add_0_r.
    + rewrite (Hget _ _ Hj). do 2 f_equal. lia.
Qed.

(** The text that [build_create_statement] produces is the printed form
    of a column list with the output columns first, in statement order, each
    under the name and with the declared type the statement gives it,
    followed by one hidden column per bind parameter in parameter order; the
    column of a named parameter is the parameter name without its first
    character, the column of a nameless parameter is its 1-based position in
    decimal.  The declared type is printed as it is, so the text need not
    determine the list. *)
Theorem schema_outputs_then_hidden_inputs (s : sqlite3_stmt) (text : string) :
  sqlite3_column_count s <= INT_MAX ->
  sqlite3_bind_parameter_count s <= INT_MAX ->
  build_create_statement true s = Some text ->
  exists cols,
    text = declaration cols
    /\ length cols = (length (columns s) + length (parameters s))%nat
    /\ (forall i name type,
          columns s !! i = Some (Some name, type) ->
          cols !! i = Some {| column_name := name; declared_type := type;
                              column_role := Output |})
    /\ (forall j name,
          parameters s !! j = Some (Some name) ->
          cols !! (length (columns s) + j)%nat
          = Some {| column_name := skip_marker name; declared_type := None;
                    column_role := HiddenInput |})
    /\ (forall j,
          parameters s !! j = Some None ->
          cols !! (length (columns s) + j)%nat
          = Some {| column_name := format_d (Z.of_nat j + 1);
                    declared_type := None;
                    column_role := HiddenInput |}).
Proof.
  intros Hc Hp. rewrite (build_create_statement_spec true s Hc Hp).
  unfold derived_schema.
  destruct (output_columns (columns s)) as [outs|] eqn:Houts; [|discriminate].
  intros Htext. injection Htext as <-.
  destruct (output_columns_lookup _ _ Houts) as [Hlen Hout].
  destruct (input_columns_lookup (parameters s) 1) as [Hlen' Hin].
  exists (outs ++ input_columns (parameters s) 1).
  split; [reflexivity|]. split; [|split; [|split]].
  - now rewrite length_app, Hlen, Hlen'.
  - intros i name type Hi. rewrite lookup_app_l.
    + now apply Hout.
    + rewrite Hlen. now apply lookup_lt_Some in Hi.
  - intros j name Hj. rewrite <- Hlen, lookup_app_r by lia.
    replace (length outs + j - length outs)%nat with j by lia.
    rewrite (Hin _ _ Hj). reflexivity.
  - intros j Hj. rewrite <- Hlen, lookup_app_r by lia.
    replace (length outs + j - length outs)%nat with j by lia.
    rewrite (Hin _ _ Hj). unfold input_column. do 3 f_equal. lia.
Qed.

(** The schema of [SELECT v FROM t WHERE k = :k]. *)
Lemma schema_witness :
  exists cols,
    "CREATE TABLE x( 'v' TEXT,'k' hidden)"%string = declaration cols
    /\ length cols
       = (length (columns select_v) + length (parameters select_v))%nat
    /\ (forall i name type,
          columns select_v !! i = Some (Some name, type) ->
          cols !! i = Some {| column_name := name; declared_type := type;
                              column_role := Output |})
    /\ (forall j name,
          parameters select_v !! j = Some (Some name) ->
          cols !! (length (columns select_v) + j)%nat
          = Some {| column_name := skip_marker name; declared_type := None;
                    column_role := HiddenInput |})
    /\ (forall j,
          parameters select_v !! j = Some None ->
          cols !! (length (columns select_v) + j)%nat
          = Some {| column_name := format_d (Z.of_nat j + 1);
                    declared_type := None;
                    column_role := HiddenInput |}).
Proof.
  apply (schema_outputs_then_hidden_inputs select_v).
  - vm_compute. discriminate.
  - vm_compute. discriminate.
  - reflexivity.
Defined.

(** C8, where the code departs from it. Line 41 quotes the name of a
    result column and prints its declared type as it is. For the single
    result column [v] with the declared type [TEXT,'w' hidden] and the single
    parameter [:k], the text is the one built for the column [v] of type
    [TEXT] and the two parameters [:w] and [:k]: it lists three columns, two
    of them hidden, for a statement with one parameter, while the relation
    is created with [num_outputs = 1] and [num_inputs = 1]. *)
Lemma declared_type_is_spliced_unquoted :
  build_create_statement true Declared.select_v_typed
  = Some "CREATE TABLE x( 'v' TEXT,'w' hidden,'k' hidden)"%string
  /\ build_create_statement true Declared.select_v_w_k
     = build_create_statement true Declared.select_v_typed
  /\ sqlite3_bind_parameter_count Declared.select_v_typed = 1
  /\ sqlite3_bind_parameter_count Declared.select_v_w_k = 2
  /\ statement_vtab_create all_succeed
       (connection Declared.select_v_typed SQLITE_OK EmptyString)
       (module_arguments "(SELECT v FROM t WHERE k = :k)")
     = {| code := SQLITE_OK;
          ppVtab :=
            Some {| sql := "SELECT v FROM t WHERE k = :k";
                    sql_len := 28; num_inputs := 1; num_outputs := 1 |};
          pzErr := None |}.
Proof. repeat split. Qed.

(** *** The argument checks of [statement_vtab_create] *)

Lemma parenthesized_checks (arg body : string) :
  parenthesized arg body ->
  body <> EmptyString ->
  (strlen arg <? 3) = false
  /\ is_char (char_at arg 0) "("%char = true
  /\ is_char (char_at arg (strlen arg - 1)) ")"%char = true
  /\ String.substring 1 (Z.to_nat (strlen arg - 2)) arg = body
  /\ strlen arg - 2 = strlen body.
Proof.
  unfold parenthesized, strlen. intros -> Hbody.
  assert (Hlen : String.length ("(" ++ body ++ ")")%string
                 = S (S (String.length body))).
  { cbn [append String.length]. rewrite length_append. simpl. lia. }
  rewrite Hlen.
  assert (0 < String.length body)%nat
    by (destruct body; [congruence|simpl; lia]).
  split; [apply Z.ltb_ge; lia|]. split; [reflexivity|]. split; [|split].
  - unfold char_at.
    destruct (Z.ltb_spec (Z.of_nat (S (S (String.length body))) - 1) 0);
      [lia|].
    replace (Z.to_nat (Z.of_nat (S (S (String.length body))) - 1))
      with (S (String.length body)) by lia.
    cbn [append String.get]. now rewrite get_append_end.
  - replace (Z.to_nat (Z.of_nat (S (S (String.length body))) - 2))
      with (String.length body) by lia.
    cbn [append String.substring]. apply substring_prefix.
  - lia.
Qed.

Lemma checks_parenthesized (arg : string) :
  3 <= strlen arg ->
  is_char (char_at arg 0) "("%char = true ->
  is_char (char_at arg (strlen arg - 1)) ")"%char = true ->
  exists body, parenthesized arg body.
Proof.
  unfold strlen, parenthesized. intros Hlen Hfirst Hlast.
  destruct arg as [|c rest]; [simpl in Hlen; lia|].
  cbn [String.length] in *.
  unfold char_at in Hfirst, Hlast. cbn [Z.ltb Z.compare Z.to_nat String.get]
    in Hfirst.
  cbn [is_char] in Hfirst. apply Ascii.eqb_eq in Hfirst. subst c.
  destruct (Z.ltb_spec (Z.of_nat (S (String.length rest)) - 1) 0); [lia|].
  replace (Z.to_nat (Z.of_nat (S (String.length rest)) - 1))
    with (S (String.length rest - 1)) in Hlast by lia.
  cbn [String.get] in Hlast.
  destruct (String.get (String.length rest - 1) rest) as [c|] eqn:Hget;
    [|discriminate].
  cbn [is_char] in Hlast. apply Ascii.eqb_eq in Hlast. subst c.
  exists (String.substring 0 (String.length rest - 1) rest).
  cbn [append]. f_equal. apply string_last; [|exact Hget].
  destruct rest; [simpl in Hlen; lia|discriminate].
Qed.

(** The module arguments hold a statement when there are at least four of
    them. *)
Lemma fourth_argument (argv : list string) (arg : string) :
  argv !! 3%nat = Some arg ->
  (if Z.of_nat (length argv) <? 4 then None else argv !! 3%nat) = Some arg.
Proof.
  intros Harg. pose proof (lookup_lt_Some _ _ _ Harg).
  destruct (Z.ltb_spec (Z.of_nat (length argv)) 4); [lia|exact Harg].
Qed.

(** [statement_vtab_create] from the point where the statement text has
    been copied out of a well-formed argument. *)
Lemma create_parenthesized a db argv arg body :
  argv !! 3%nat = Some arg ->
  parenthesized arg body ->
  body <> EmptyString ->
  alloc_vtab a = true ->
  alloc_sql a = true ->
  statement_vtab_create a db argv
  = (let '(ret, stmt) := sqlite3_prepare_v2 db body in
     if negb (ret =? SQLITE_OK) then report a ret (sqlite3_errmsg db ret)
     else if negb (sqlite3_stmt_readonly stmt)
     then report a SQLITE_ERROR "Statement must be read only."%string
     else
       match build_create_statement (alloc_str a) stmt with
       | None => {| code := SQLITE_NOMEM; ppVtab := None; pzErr := None |}
       | Some create =>
           if negb (sqlite3_declare_vtab db create =? SQLITE_OK)
           then report a (sqlite3_declare_vtab db create)
                  (sqlite3_errmsg db (sqlite3_declare_vtab db create))
           else {| code := SQLITE_OK;
                   ppVtab :=
                     Some {| sql := body; sql_len := strlen body;
                             num_inputs := sqlite3_bind_parameter_count stmt;
                             num_outputs := sqlite3_column_count stmt |};
                   pzErr := None |}
       end).
Proof.
  intros Harg Hparen Hbody Hvtab Hsql.
  destruct (parenthesized_checks _ _ Hparen Hbody)
    as (Hlen & Hfirst & Hlast & Hsub & Hsqllen).
  unfold statement_vtab_create.
  rewrite (fourth_argument _ _ Harg). cbv zeta.
  rewrite Hlen, Hfirst, Hlast, Hvtab, Hsql, Hsub, Hsqllen. cbn [negb orb].
  destruct (sqlite3_prepare_v2 db body) as [ret stmt]. reflexivity.
Qed.

Lemma output_columns_unnamed cols i type :
  cols !! i = Some (None, type) -> output_columns cols = None.
Proof.
  revert i. induction cols as [|[[name|] t] rest IH]; intros [|i] Hi;
    try discriminate; simpl in *; try reflexivity.
  now rewrite (IH _ Hi).
Qed.

Lemma output_columns_named cols :
  Forall (fun c => fst c <> None) cols ->
  exists outs, output_columns cols = Some outs.
Proof.
  induction 1 as [|[[name|] t] rest Hc Hrest [outs IH]]; simpl.
  - now exists [].
  - rewrite IH. eauto.
  - simpl in Hc. congruence.
Qed.

(** *** Creation *)

Lemma build_create_statement_unallocated s :
  build_create_statement false s = None.
Proof.
  unfold build_create_statement. now destruct (append_outputs _ _ _ _).
Qed.

(** C6, as the code has it. When some output column has no retrievable
    name, and likewise when the schema text cannot be allocated, creation
    fails with [SQLITE_NOMEM], no relation and no message: the two failures
    are reported in the same way. *)
Theorem create_reports_unnamed_column_as_nomem
    (a : allocator) (db : sqlite3) (argv : list string)
    (arg body : string) (stmt : sqlite3_stmt) :
  argv !! 3%nat = Some arg ->
  parenthesized arg body ->
  body <> EmptyString ->
  alloc_vtab a = true ->
  alloc_sql a = true ->
  sqlite3_prepare_v2 db body = (SQLITE_OK, stmt) ->
  sqlite3_stmt_readonly stmt = true ->
  sqlite3_column_count stmt <= INT_MAX ->
  sqlite3_bind_parameter_count stmt <= INT_MAX ->
  (exists i type, columns stmt !! i = Some (None, type))
  \/ alloc_str a = false ->
  statement_vtab_create a db argv
  = {| code := SQLITE_NOMEM; ppVtab := None; pzErr := None |}.
Proof.
  intros Harg Hparen Hbody Hvtab Hsql Hprep Hro Hc Hp Hfail.
  rewrite (create_parenthesized a db argv arg body) by assumption.
  rewrite Hprep, Hro. cbn [Z.eqb SQLITE_OK negb].
  destruct Hfail as [(i & type & Hi)|Hstr].
  - rewrite (build_create_statement_spec _ _ Hc Hp). unfold derived_schema.
    now rewrite (output_columns_unnamed _ _ _ Hi).
  - now rewrite Hstr, build_create_statement_unallocated.
Qed.

(** A statement with an unnamed column under an allocator that never
    fails. *)
Lemma create_reports_unnamed_witness :
  statement_vtab_create all_succeed
    (connection select_unnamed SQLITE_OK EmptyString)
    (module_arguments "(SELECT 1)")
  = {| code := SQLITE_NOMEM; ppVtab := None; pzErr := None |}.
Proof.
  apply (create_reports_unnamed_column_as_nomem all_succeed
           (connection select_unnamed SQLITE_OK EmptyString)
           (module_arguments "(SELECT 1)") "(SELECT 1)" "SELECT 1"
           select_unnamed); try reflexivity.
  - discriminate.
  - vm_compute. discriminate.
  - vm_compute. discriminate.
  - left. exists 0%nat, None. reflexivity.
Defined.

(** An unnamed output column and a failed allocation of the schema text
    leave the same return code, the same (absent) relation and the same
    (absent) message. *)
Lemma create_unnamed_same_as_unallocated :
  statement_vtab_create all_succeed
    (connection select_unnamed SQLITE_OK EmptyString)
    (module_arguments "(SELECT 1)")
  = statement_vtab_create
      {| alloc_message := true; alloc_vtab := true;
         alloc_sql := true; alloc_str := false |}
      (connection select_v SQLITE_OK EmptyString)
      (module_arguments "(SELECT v FROM t WHERE k = :k)")
  /\ code (statement_vtab_create all_succeed
             (connection select_unnamed SQLITE_OK EmptyString)
             (module_arguments "(SELECT 1)"))
     = SQLITE_NOMEM.
Proof. split; reflexivity. Qed.

(** C7, as the code has it. Given a fourth module argument that is a query
    body of at least one character between parentheses, which the host
    prepares to a
    read-only statement whose result columns all have names and whose
    declaration the host accepts, and with no failing allocation, creation
    succeeds and the relation's [num_outputs] and [num_inputs] are the
    statement's result-column and bind-parameter counts.  Creation fails
    with a message when the argument is missing or shorter than 3
    characters, when it is not parenthesized, and when the prepared
    statement is not read-only. *)
Theorem create_validates_and_counts
    (a : allocator) (db : sqlite3) (argv : list string) :
  (forall arg body stmt,
     argv !! 3%nat = Some arg ->
     parenthesized arg body ->
     body <> EmptyString ->
     alloc_vtab a = true -> alloc_sql a = true -> alloc_str a = true ->
     sqlite3_prepare_v2 db body = (SQLITE_OK, stmt) ->
     sqlite3_stmt_readonly stmt = true ->
     Forall (fun c => fst c <> None) (columns stmt) ->
     sqlite3_column_count stmt <= INT_MAX ->
     sqlite3_bind_parameter_count stmt <= INT_MAX ->
     (forall text, build_create_statement true stmt = Some text ->
                   sqlite3_declare_vtab db text = SQLITE_OK) ->
     statement_vtab_create a db argv
     = {| code := SQLITE_OK;
          ppVtab :=
            Some {| sql := body; sql_len := strlen body;
                    num_inputs := sqlite3_bind_parameter_count stmt;
                    num_outputs := sqlite3_column_count stmt |};
          pzErr := None |})
  /\ (alloc_message a = true ->
      (length argv < 4)%nat
      \/ (exists arg, argv !! 3%nat = Some arg /\ strlen arg < 3) ->
      statement_vtab_create a db argv
      = {| code := SQLITE_MISUSE; ppVtab := None;
           pzErr := Some "no statement provided"%string |})
  /\ (alloc_message a = true ->
      forall arg,
        argv !! 3%nat = Some arg ->
        3 <= strlen arg ->
        (forall body, ~ parenthesized arg body) ->
        statement_vtab_create a db argv
        = {| code := SQLITE_MISUSE; ppVtab := None;
             pzErr := Some "statement must be parenthesized"%string |})
  /\ (alloc_message a = true ->
      forall arg body stmt,
        argv !! 3%nat = Some arg ->
        parenthesized arg body ->
        body <> EmptyString ->
        alloc_vtab a = true -> alloc_sql a = true ->
        sqlite3_prepare_v2 db body = (SQLITE_OK, stmt) ->
        sqlite3_stmt_readonly stmt = false ->
        statement_vtab_create a db argv
        = {| code := SQLITE_ERROR; ppVtab := None;
             pzErr := Some "Statement must be read only."%string |}).
Proof.
  split; [|split; [|split]].
  - intros arg body stmt Harg Hparen Hbody Hvtab Hsql Hstr Hprep Hro Hnamed
      Hc Hp Hdecl.
    rewrite (create_parenthesized a db argv arg body) by assumption.
    rewrite Hprep, Hro, Hstr. cbn [Z.eqb SQLITE_OK negb].
    destruct (output_columns_named _ Hnamed) as [outs Houts].
    pose proof (build_create_statement_spec true stmt Hc Hp) as Hbuild.
    unfold derived_schema in Hbuild. rewrite Houts in Hbuild.
    rewrite Hbuild. rewrite (Hdecl _ Hbuild). reflexivity.
  - intros Hmsg Hshort. unfold statement_vtab_create, report.
    destruct Hshort as [Hargc|(arg & Harg & Hlen)].
    + destruct (Z.ltb_spec (Z.of_nat (length argv)) 4); [|lia].
      now rewrite Hmsg.
    + rewrite (fourth_argument _ _ Harg). cbv zeta.
      apply Z.ltb_lt in Hlen. now rewrite Hlen, Hmsg.
  - intros Hmsg arg Harg Hlen Hnot. unfold statement_vtab_create, report.
    rewrite (fourth_argument _ _ Harg). cbv zeta.
    destruct (Z.ltb_spec (strlen arg) 3); [lia|].
    destruct (is_char (char_at arg 0) "(") eqn:Hfirst;
      [|cbn [negb orb]; now rewrite Hmsg].
    destruct (is_char (char_at arg (strlen arg - 1)) ")") eqn:Hlast;
      [|cbn [negb orb]; now rewrite Hmsg].
    destruct (checks_parenthesized arg Hlen Hfirst Hlast) as [body Hbody].
    now destruct (Hnot body).
  - intros Hmsg arg body stmt Harg Hparen Hbody Hvtab Hsql Hprep Hro.
    rewrite (create_parenthesized a db argv arg body) by assumption.
    rewrite Hprep, Hro. cbn [Z.eqb SQLITE_OK negb]. unfold report.
    now rewrite Hmsg.
Qed.

(** [CREATE VIRTUAL TABLE t USING statement((SELECT v FROM t WHERE k = :k))]
    gives a relation with one output and one input column. *)
Lemma create_validates_witness :
  statement_vtab_create all_succeed
    (connection select_v SQLITE_OK EmptyString)
    (module_arguments "(SELECT v FROM t WHERE k = :k)")
  = {| code := SQLITE_OK;
       ppVtab :=
         Some {| sql := "SELECT v FROM t WHERE k = :k";
                 sql_len := strlen "SELECT v FROM t WHERE k = :k";
                 num_inputs := sqlite3_bind_parameter_count select_v;
                 num_outputs := sqlite3_column_count select_v |};
       pzErr := None |}.
Proof.
  destruct (create_validates_and_counts all_succeed
              (connection select_v SQLITE_OK EmptyString)
              (module_arguments "(SELECT v FROM t WHERE k = :k)"))
    as [Hcreate _].
  apply (Hcreate "(SELECT v FROM t WHERE k = :k)"%string); try reflexivity.
  - discriminate.
  - repeat constructor; discriminate.
  - vm_compute. discriminate.
  - vm_compute. discriminate.
Defined.

(** [SELECT k, v FROM t WHERE k = :k] is read-only, parenthesized and
    prepared without error, and all its columns have names; its declaration
    names two columns [k], the host rejects it, and creation fails with the
    host's code and message. *)
Lemma create_fails_when_declaration_rejected :
  build_create_statement true select_k_v
  = Some "CREATE TABLE x( 'k' INTEGER,'v' TEXT,'k' hidden)"%string
  /\ statement_vtab_create all_succeed
       (connection select_k_v SQLITE_ERROR "duplicate column name: k")
       (module_arguments "(SELECT k, v FROM t WHERE k = :k)")
     = {| code := SQLITE_ERROR; ppVtab := None;
          pzErr := Some "duplicate column name: k"%string |}.
Proof. split; reflexivity. Qed.

(** C10. Connecting is creating: on every input [statement_vtab_connect]
    returns what [statement_vtab_create] returns, so the argument checks,
    the read-only check and the derivation of the schema are run again on
    every connect. *)
Theorem connect_is_create
    (a : allocator) (db : sqlite3) (argv : list string) :
  statement_vtab_connect a db argv = statement_vtab_create a db argv.
Proof. reflexivity. Qed.

End SchemaProofs.

(** * Further properties of the code *)

(** ** The planner in every outcome *)

Module PlannerExtras.
Import Planner Plan PlannerProofs.

Lemma scan_constraints_usage_length nout cs :
  forall i st,
    length (st_usage (state_of (scan_constraints nout cs i st)))
    = length (st_usage st).
Proof.
  induction cs as [|c rest IH]; intros i st; [reflexivity|].
  cbn [scan_constraints].
  destruct (iColumn c <? nout); [apply IH|].
  destruct (negb (usable c) || negb (op c =? SQLITE_INDEX_CONSTRAINT_EQ));
    [reflexivity|].
  rewrite IH. cbn [st_usage]. apply length_insert.
Qed.

Lemma build_colmap_usage_length n :
  forall i usage colmap argc,
    length (fst (fst (build_colmap n i usage colmap argc))) = length usage.
Proof.
  induction n as [|n IH]; intros i usage colmap argc; [reflexivity|].
  cbn [build_colmap]. destruct (usage !! i) as [u|]; [|apply IH].
  destruct (argvIndex u =? 0); [apply IH|].
  rewrite IH. apply length_insert.
Qed.

(** X1. Whatever the request and whatever the outcome (feasible or not,
    map allocated or not), the planner reports that it does not satisfy the
    requested order, an estimated cost of 1 and an estimated row count of 1,
    leaves the predicates as they are and keeps the usage array at its
    length. *)
Theorem best_index_constants_in_every_outcome
    (m : option (nat -> Z)) (vt : statement_vtab)
    (info : sqlite3_index_info) :
  orderByConsumed (snd (statement_vtab_best_index m vt info)) = false
  /\ estimatedCost (snd (statement_vtab_best_index m vt info)) = 1
  /\ estimatedRows (snd (statement_vtab_best_index m vt info)) = 1
  /\ aConstraint (snd (statement_vtab_best_index m vt info))
     = aConstraint info
  /\ length (aConstraintUsage (snd (statement_vtab_best_index m vt info)))
     = length (aConstraintUsage info).
Proof.
  unfold statement_vtab_best_index.
  pose proof (scan_constraints_usage_length (num_outputs vt)
                (aConstraint (set_plan_constants info)) 0%nat
                {| st_usage := aConstraintUsage (set_plan_constants info);
                   col_max := 0; used_cols := 0; out_constraints := 0 |})
    as Hlen.
  destruct (scan_constraints _ _ _ _) as [st|st]; cbn [state_of st_usage] in Hlen.
  - cbn. repeat split. exact Hlen.
  - destruct ((out_constraints st =? 0) || _); [cbn; repeat split; exact Hlen|].
    destruct m as [junk|]; [|cbn; repeat split; exact Hlen].
    pose proof (build_colmap_usage_length
                  (nConstraint (set_usage (set_plan_constants info)
                                  (st_usage st)))
                  0%nat (st_usage st)
                  (fresh_buffer junk (out_constraints st)) 0) as Hlen'.
    destruct (build_colmap _ _ _ _ _) as [[usage' colmap'] argc'].
    cbn in *. repeat split. congruence.
Qed.

Lemma identity_test_true nout cs :
  contiguousb (hidden_columns nout cs) = true ->
  col_bound (hidden_columns nout cs) <= 64 ->
  (Z.of_nat (length (hidden_columns nout cs)) =? 0)
  || ((col_bound (hidden_columns nout cs) <=? 64)
      && (mask (hidden_columns nout cs)
          =? required_cols (col_bound (hidden_columns nout cs))))
  = true.
Proof.
  intros Hc Hb. apply contiguousb_spec in Hc.
  apply (mask_contiguous _ (hidden_columns_nonneg _ _) Hb) in Hc.
  rewrite Hc. apply Z.leb_le in Hb. rewrite Hb. apply orb_true_r.
Qed.

(** The two shapes of a set of columns exclude each other. *)
Lemma shape_cases cols :
  (contiguousb cols = true /\ col_bound cols <= 64)
  \/ (contiguousb cols = false \/ 64 < col_bound cols).
Proof. destruct (contiguousb cols); lia. Qed.

(** X2. The planner returns one of three codes, and each tells what
    happened: [SQLITE_CONSTRAINT] exactly when some predicate on a hidden
    column is not a usable equality; [SQLITE_NOMEM] exactly when all of them
    are, an index map is needed (the matched columns are not the range
    [0..max_c] within 64 columns) and the map cannot be allocated;
    [SQLITE_OK] otherwise. *)
Theorem best_index_return_codes
    (m : option (nat -> Z)) (vt : statement_vtab)
    (info : sqlite3_index_info) :
  host_prepared vt info = true ->
  (fst (statement_vtab_best_index m vt info) = SQLITE_CONSTRAINT
   <-> feasible (num_outputs vt) (aConstraint info) = false)
  /\ (fst (statement_vtab_best_index m vt info) = SQLITE_NOMEM
      <-> feasible (num_outputs vt) (aConstraint info) = true
          /\ m = None
          /\ (contiguousb (hidden_columns (num_outputs vt) (aConstraint info))
              = false
              \/ 64 < col_bound (hidden_columns (num_outputs vt)
                                   (aConstraint info))))
  /\ (fst (statement_vtab_best_index m vt info) = SQLITE_OK
      \/ fst (statement_vtab_best_index m vt info) = SQLITE_CONSTRAINT
      \/ fst (statement_vtab_best_index m vt info) = SQLITE_NOMEM).
Proof.
  intros Hp.
  destruct (feasible (num_outputs vt) (aConstraint info)) eqn:Hf.
  - rewrite (best_index_feasible m vt info Hp Hf). cbv zeta.
    destruct (shape_cases (hidden_columns (num_outputs vt) (aConstraint info)))
      as [[Hc Hb]|Hshape].
    + rewrite (identity_test_true _ _ Hc Hb). cbn [fst].
      repeat split; try discriminate; auto.
      intros (_ & _ & [Hc'|Hb']); [congruence|lia].
    + rewrite (identity_test_false _ _ Hshape).
      destruct m as [junk|]; cbn [fst];
        repeat split; try discriminate; auto.
      intros (_ & Hm & _). discriminate.
  - destruct (best_index_cases m vt info Hf) as (Hrc & _). rewrite Hrc.
    repeat split; try discriminate; auto.
    intros (Hf' & _). discriminate.
Qed.

Lemma best_index_return_codes_witness :
  fst (statement_vtab_best_index None (relation 1 3)
         (request [equality_on 1; equality_on 3]))
  = SQLITE_NOMEM.
Proof.
  destruct (best_index_return_codes None (relation 1 3)
              (request [equality_on 1; equality_on 3]))
    as (_ & Hnomem & _); [reflexivity|].
  apply Hnomem. repeat split. left. reflexivity.
Defined.

(** X3. When an index map is needed and cannot be allocated, the planner
    returns [SQLITE_NOMEM] and attaches no map; the usage entries it wrote
    before the allocation stay: each predicate on a hidden column [c] keeps
    the argument position [c + 1] and its omit flag. *)
Theorem best_index_allocation_failure
    (vt : statement_vtab) (info : sqlite3_index_info) :
  host_prepared vt info = true ->
  feasible (num_outputs vt) (aConstraint info) = true ->
  contiguousb (hidden_columns (num_outputs vt) (aConstraint info)) = false
  \/ 64 < col_bound (hidden_columns (num_outputs vt) (aConstraint info)) ->
  fst (statement_vtab_best_index None vt info) = SQLITE_NOMEM
  /\ idxStr (snd (statement_vtab_best_index None vt info)) = None
  /\ needToFreeIdxStr (snd (statement_vtab_best_index None vt info)) = false
  /\ (forall i c,
        aConstraint info !! i = Some c ->
        num_outputs vt <= iColumn c ->
        aConstraintUsage (snd (statement_vtab_best_index None vt info)) !! i
        = Some {| argvIndex := iColumn c - num_outputs vt + 1;
                  omit := true |}).
Proof.
  intros Hp Hf Hshape.
  destruct (host_prepared_spec _ _ Hp) as (_ & _ & _ & _ & Hidx & Hfree).
  rewrite (best_index_feasible None vt info Hp Hf). cbv zeta.
  rewrite (identity_test_false _ _ Hshape).
  cbn [fst snd set_usage set_plan_constants idxStr needToFreeIdxStr
       aConstraintUsage].
  repeat split; try assumption.
  intros i c Hi Hcol. rewrite (identity_usage_lookup _ _ _ _ Hi).
  unfold identity_usage. apply hidden_spec in Hcol. now rewrite Hcol.
Qed.

Lemma best_index_allocation_failure_witness :
  idxStr (snd (statement_vtab_best_index None (relation 1 3)
                 (request [equality_on 1; equality_on 3])))
  = None.
Proof.
  destruct (best_index_allocation_failure (relation 1 3)
              (request [equality_on 1; equality_on 3]))
    as (_ & Hidx & _);
    [reflexivity | reflexivity | left; reflexivity | exact Hidx].
Defined.

End PlannerExtras.

(** ** The planner and the bind together *)

Module ContractExtras.
Import Planner Plan PlannerProofs Cursor Binding.

Lemma lookup_map {A B : Type} (f : A -> B) (l : list A) i x :
  l !! i = Some x -> map f l !! i = Some (f x).
Proof.
  revert i. induction l as [|a l IH]; intros [|i] Hi; try discriminate.
  - injection Hi as ->. reflexivity.
  - simpl in *. now apply IH.
Qed.

Lemma rank_nonneg nout cs i : 0 <= rank nout cs i.
Proof. unfold rank. lia. Qed.

(** The predicate at position [i] is the [rank]-th predicate on a hidden
    column. *)
Lemma hidden_columns_rank nout cs :
  forall i c,
    cs !! i = Some c ->
    hidden nout c = true ->
    hidden_columns nout cs !! Z.to_nat (rank nout cs i)
    = Some (iColumn c - nout).
Proof.
  induction cs as [|a rest IH]; intros [|i] c Hi Hh; try discriminate.
  - injection Hi as ->. rewrite hidden_columns_cons, Hh. reflexivity.
  - cbn in Hi. rewrite rank_cons, hidden_columns_cons.
    pose proof (rank_nonneg nout rest i).
    destruct (hidden nout a).
    + replace (Z.to_nat (1 + rank nout rest i))
        with (S (Z.to_nat (rank nout rest i))) by lia.
      cbn [lookup list_lookup]. now apply IH.
    + rewrite Z.add_0_l. now apply IH.
Qed.

Lemma rank_below_count nout cs i c :
  cs !! i = Some c ->
  hidden nout c = true ->
  rank nout cs i < Z.of_nat (length (hidden_columns nout cs)).
Proof.
  intros Hi Hh. pose proof (hidden_columns_rank _ _ _ _ Hi Hh) as Hl.
  apply lookup_lt_Some in Hl. pose proof (rank_nonneg nout cs i). lia.
Qed.

(** Distinct columns below [n] are at most [n]. *)
Lemma distinct_columns_count (cols : list Z) (n : Z) :
  cols <> [] ->
  List.NoDup cols ->
  (forall c, In c cols -> 0 <= c < n) ->
  Z.of_nat (length cols) <= n.
Proof.
  intros Hne Hnd Hrange.
  destruct (Z_le_gt_dec 0 n) as [Hn|Hn].
  - assert (Hincl : incl cols (map Z.of_nat (seq 0 (Z.to_nat n)))).
    { intros c Hc. specialize (Hrange c Hc). apply in_map_iff.
      exists (Z.to_nat c). split; [lia|]. apply in_seq. lia. }
    pose proof (List.NoDup_incl_length Hnd Hincl) as Hlen.
    rewrite length_map, length_seq in Hlen. lia.
  - destruct cols as [|c cols]; [congruence|].
    specialize (Hrange c (or_introl eq_refl)). lia.
Qed.

Lemma hidden_columns_in nout cs c :
  In c (hidden_columns nout cs) ->
  exists p, In p cs /\ hidden nout p = true /\ c = iColumn p - nout.
Proof.
  unfold hidden_columns. intros Hin. apply in_map_iff in Hin.
  destruct Hin as (p & <- & Hp). apply filter_In in Hp.
  exists p. tauto.
Qed.

(** X4. When every predicate names a column of the relation and the
    predicates on hidden columns name distinct columns, the plan never asks
    for more arguments than the relation has inputs: every argument position
    the planner hands out is at most [num_inputs], and an attached index map
    has at most [num_inputs] entries, each a parameter index between 1 and
    [num_inputs]. *)
Theorem best_index_positions_within_inputs
    (m : option (nat -> Z)) (vt : statement_vtab)
    (info : sqlite3_index_info) :
  host_prepared vt info = true ->
  0 <= num_inputs vt ->
  feasible (num_outputs vt) (aConstraint info) = true ->
  (forall c, In c (aConstraint info) ->
             iColumn c < num_outputs vt + num_inputs vt) ->
  List.NoDup (hidden_columns (num_outputs vt) (aConstraint info)) ->
  (forall i c,
     aConstraint info !! i = Some c ->
     exists u,
       aConstraintUsage (snd (statement_vtab_best_index m vt info)) !! i
       = Some u
       /\ 0 <= argvIndex u <= num_inputs vt)
  /\ (forall colmap,
        idxStr (snd (statement_vtab_best_index m vt info)) = Some colmap ->
        Z.of_nat (length colmap) <= num_inputs vt
        /\ (forall p, In p colmap -> 1 <= p <= num_inputs vt)).
Proof.
  intros Hp Hnin Hf Hcols Hnd.
  destruct (host_prepared_spec _ _ Hp) as (Hn & _ & _ & _ & Hidx & _).
  assert (Hrange : forall c,
            In c (hidden_columns (num_outputs vt) (aConstraint info)) ->
            0 <= c < num_inputs vt).
  { intros c Hc. destruct (hidden_columns_in _ _ _ Hc) as (p & Hin & Hh & ->).
    apply hidden_spec in Hh. specialize (Hcols p Hin). lia. }
  assert (Hcount : hidden_columns (num_outputs vt) (aConstraint info) <> [] ->
            Z.of_nat (length (hidden_columns (num_outputs vt)
                                (aConstraint info)))
            <= num_inputs vt).
  { intros Hne. now apply distinct_columns_count. }
  assert (Hidentity : forall i c,
            aConstraint info !! i = Some c ->
            exists u,
              map (identity_usage (num_outputs vt)) (aConstraint info) !! i
              = Some u
              /\ 0 <= argvIndex u <= num_inputs vt).
  { intros i c Hi. rewrite (identity_usage_lookup _ _ _ _ Hi).
    eexists. split; [reflexivity|]. unfold identity_usage.
    destruct (hidden (num_outputs vt) c) eqn:Hh.
    - assert (Hin : In c (aConstraint info)).
      { apply list_elem_of_In. eapply list_elem_of_lookup_2. exact Hi. }
      apply hidden_spec in Hh. specialize (Hcols c Hin). cbn. lia.
    - cbn. lia. }
  rewrite (best_index_feasible m vt info Hp Hf). cbv zeta.
  destruct ((Z.of_nat _ =? 0) || _) eqn:Htest; [|destruct m as [junk|]];
    cbn [fst snd set_idxStr set_usage set_plan_constants idxStr
         aConstraintUsage].
  - split; [exact Hidentity|]. intros colmap Hmap. congruence.
  - split.
    + intros i c Hi. rewrite (dense_usage_lookup _ _ _ _ _ Hi).
      eexists. split; [reflexivity|].
      destruct (hidden (num_outputs vt) c) eqn:Hh; [|cbn; lia].
      pose proof (rank_below_count _ _ _ _ Hi Hh) as Hrank.
      pose proof (rank_nonneg (num_outputs vt) (aConstraint info) i).
      assert (Z.of_nat (length (hidden_columns (num_outputs vt)
                                  (aConstraint info)))
              <= num_inputs vt).
      { apply Hcount. intros Hnil. rewrite Hnil in Hrank. simpl in Hrank.
        lia. }
      cbn. lia.
    + intros colmap Hmap. injection Hmap as <-.
      rewrite length_map. split.
      { apply Hcount. intros Hnil. rewrite Hnil in Htest.
        discriminate. }
      intros p Hin. apply in_map_iff in Hin.
      destruct Hin as (c & <- & Hc). specialize (Hrange c Hc). lia.
  - split; [exact Hidentity|]. intros colmap Hmap. congruence.
Qed.

Lemma best_index_positions_witness :
  exists u,
    aConstraintUsage
      (snd (statement_vtab_best_index (Some (fun _ => 0)) (relation 1 3)
              (request [equality_on 3; equality_on 1]))) !! 0%nat
    = Some u
    /\ 0 <= argvIndex u <= num_inputs (relation 1 3).
Proof.
  destruct (best_index_positions_within_inputs (Some (fun _ => 0))
              (relation 1 3) (request [equality_on 3; equality_on 1]))
    as [Hpos _].
  - reflexivity.
  - simpl. lia.
  - reflexivity.
  - intros c [<-|[<-|[]]]; vm_compute; reflexivity.
  - repeat constructor; simpl; intuition discriminate.
  - apply (Hpos 0%nat (equality_on 3)). reflexivity.
Defined.

(** *** What the binding loop binds *)

Lemma bind_arguments_each {statement : Type} `{StatementService statement}
    (idxStr : option (list Z)) (args : list sqlite3_value) :
  forall (s : statement) i,
    bind_arguments s idxStr args i
    = bind_each s (bindings_from idxStr args i).
Proof.
  induction args as [|v rest IH]; intros s i; [reflexivity|].
  cbn [bind_arguments bindings_from bind_each]. unfold parameter_position.
  destruct (sqlite3_bind_value s _ v) as [ret s'].
  destruct (ret =? SQLITE_OK); [apply IH|reflexivity].
Qed.

Lemma bindings_from_lookup idxStr args :
  forall i j v,
    0 <= i ->
    i + Z.of_nat (length args) <= INT_MAX ->
    args !! j = Some v ->
    bindings_from idxStr args i !! j
    = Some (parameter_position idxStr (i + Z.of_nat j), v).
Proof.
  induction args as [|a rest IH]; intros i [|j] v Hi Hfit Hj;
    try discriminate; cbn [bindings_from length] in *.
  - injection Hj as ->. now rewrite Z.add_0_r.
  - cbn in Hj. rewrite int_add_small by (unfold INT_MAX in *; lia).
    change (bindings_from idxStr rest (i + 1) !! j
            = Some (parameter_position idxStr (i + Z.of_nat (S j)), v)).
    rewrite (IH (i + 1) j v ltac:(lia) ltac:(lia) Hj).
    do 3 f_equal. lia.
Qed.

(** X5. The plan and the bind agree. Take a request that the planner
    accepted and an argument vector that the host built from the plan, with
    the value of each consumed predicate at the argument position the plan
    gave it. Then the binding loop of the filter binds, in order, each
    argument to the position it computes from the plan, and the value
    compared with hidden column [c] is bound to statement parameter
    [c + 1], under the identity order and under an index map alike. *)
Theorem filter_binds_each_column_to_its_parameter
    {statement : Type} `{StatementService statement}
    (m : option (nat -> Z)) (vt : statement_vtab)
    (info : sqlite3_index_info) (values argv : list sqlite3_value)
    (s : statement) :
  host_prepared vt info = true ->
  fst (statement_vtab_best_index m vt info) = SQLITE_OK ->
  host_arguments (aConstraintUsage (snd (statement_vtab_best_index m vt info)))
    values argv ->
  Z.of_nat (length argv) <= INT_MAX ->
  bind_arguments s (idxStr (snd (statement_vtab_best_index m vt info))) argv 0
  = bind_each s
      (bindings_from (idxStr (snd (statement_vtab_best_index m vt info)))
         argv 0)
  /\ (forall i c v,
        aConstraint info !! i = Some c ->
        num_outputs vt <= iColumn c ->
        values !! i = Some v ->
        In (iColumn c - num_outputs vt + 1, v)
          (bindings_from (idxStr (snd (statement_vtab_best_index m vt info)))
             argv 0)).
Proof.
  intros Hp Hok Hargv Hfit. split; [apply bind_arguments_each|].
  destruct (host_prepared_spec _ _ Hp) as (Hn & _ & Hall & _ & Hidx & _).
  destruct (feasible (num_outputs vt) (aConstraint info)) eqn:Hf.
  2: { destruct (best_index_cases m vt info Hf) as (Hrc & _).
       rewrite Hrc in Hok. discriminate. }
  revert Hok Hargv. rewrite (best_index_feasible m vt info Hp Hf). cbv zeta.
  destruct ((Z.of_nat _ =? 0) || _); [|destruct m as [junk|]];
    cbn [fst snd set_idxStr set_usage set_plan_constants idxStr
         aConstraintUsage]; try discriminate.
  - intros _ Hargv i c v Hi Hcol Hv. rewrite Hidx.
    pose proof (Hargv i _ v (identity_usage_lookup _ _ _ _ Hi)) as Ha.
    apply hidden_spec in Hcol. unfold identity_usage in Ha.
    rewrite Hcol in Ha. cbn [consumed argvIndex] in Ha.
    specialize (Ha ltac:(apply hidden_spec in Hcol; lia) Hv).
    apply hidden_spec in Hcol.
    replace (iColumn c - num_outputs vt + 1 - 1)
      with (iColumn c - num_outputs vt) in Ha by lia.
    pose proof (lookup_lt_Some _ _ _ Ha) as Hlt.
    pose proof (bindings_from_lookup None argv 0 _ v ltac:(lia)
                  ltac:(lia) Ha) as Hb.
    apply list_elem_of_In.
    replace (iColumn c - num_outputs vt + 1, v)
      with (parameter_position None
              (0 + Z.of_nat (Z.to_nat (iColumn c - num_outputs vt))), v).
    + exact (list_elem_of_lookup_2 _ _ _ Hb).
    + f_equal. unfold parameter_position.
      rewrite int_add_small by (unfold INT_MAX in *; lia). lia.
  - intros _ Hargv i c v Hi Hcol Hv. apply hidden_spec in Hcol.
    pose proof (dense_usage_lookup (num_outputs vt) (aConstraint info) 0 _ _ Hi)
      as Hu.
    rewrite Hcol in Hu.
    pose proof (rank_nonneg (num_outputs vt) (aConstraint info) i) as Hr.
    pose proof (Hargv i _ v Hu ltac:(cbn; lia) Hv) as Ha.
    cbn [argvIndex] in Ha.
    replace (0 + rank (num_outputs vt) (aConstraint info) i + 1 - 1)
      with (rank (num_outputs vt) (aConstraint info) i) in Ha by lia.
    pose proof (lookup_lt_Some _ _ _ Ha) as Hlt.
    pose proof (bindings_from_lookup
                  (Some (map (fun c => c + 1)
                           (hidden_columns (num_outputs vt)
                              (aConstraint info))))
                  argv 0 _ v ltac:(lia) ltac:(lia) Ha) as Hb.
    apply list_elem_of_In.
    replace (iColumn c - num_outputs vt + 1, v)
      with (parameter_position
              (Some (map (fun c => c + 1)
                       (hidden_columns (num_outputs vt) (aConstraint info))))
              (0 + Z.of_nat (Z.to_nat (rank (num_outputs vt)
                                         (aConstraint info) i))), v).
    + exact (list_elem_of_lookup_2 _ _ _ Hb).
    + f_equal. unfold parameter_position.
      replace (Z.to_nat (0 + Z.of_nat (Z.to_nat (rank (num_outputs vt)
                                                  (aConstraint info) i))))
        with (Z.to_nat (rank (num_outputs vt) (aConstraint info) i)) by lia.
      apply nth_lookup_Some.
      apply (lookup_map (fun c => c + 1)).
      now apply hidden_columns_rank.
Qed.

(** Equalities on hidden columns 2 and 0 of a relation with one output
    column, compared with ["c"] and ["a"]: the map is [3; 1], the host passes
    ["c"; "a"], and ["c"] is bound to parameter 3. *)
Lemma filter_binds_witness :
  In (3, SqlText "c")
    (bindings_from
       (idxStr (snd (statement_vtab_best_index (Some (fun _ => 0))
                       (relation 1 3)
                       (request [equality_on 3; equality_on 1]))))
       [SqlText "c"; SqlText "a"] 0).
Proof.
  destruct (filter_binds_each_column_to_its_parameter
              (Some (fun _ => 0)) (relation 1 3)
              (request [equality_on 3; equality_on 1])
              [SqlText "c"; SqlText "a"] [SqlText "c"; SqlText "a"]
              (stmt (cursor_over [] 0 [])))
    as [_ Hin].
  - reflexivity.
  - reflexivity.
  - intros [|[|i]] u v Hu Hpos Hv; cbn in Hu, Hv; try discriminate;
      injection Hu as <-; injection Hv as <-; reflexivity.
  - simpl. unfold INT_MAX. lia.
  - apply (Hin 0%nat (equality_on 3) (SqlText "c")).
    + reflexivity.
    + simpl. lia.
    + reflexivity.
Defined.

End ContractExtras.

(** ** The cursor beyond a successful scan *)

Module CursorExtras.
Import Cursor.

Section WithService.

Context {statement : Type} `{StatementService statement}.

(** X6. On a cursor whose argument buffer has one cell per input of the
    relation, as the open allocates it, the bind returns [SQLITE_OK] exactly
    when every argument could be bound, the first execution step produced a
    row or reached the end, and there are no more arguments than the
    relation has inputs. With more arguments it never returns [SQLITE_OK]:
    it returns the error of a bind or of the step, or stops at its
    assertion. *)
Theorem filter_succeeds_exactly_when
    (vt : statement_vtab) (cur : statement_cursor statement)
    (idxNum : Z) (idxStr : option (list Z)) (argv : list sqlite3_value) :
  Z.of_nat (length (param_argv cur)) = num_inputs vt ->
  (exists cur1,
     statement_vtab_filter vt cur idxNum idxStr argv = Returns SQLITE_OK cur1)
  <->
  fst (bind_arguments (sqlite3_clear_bindings (sqlite3_reset (stmt cur)))
         idxStr argv 0) = SQLITE_OK
  /\ (fst (sqlite3_step
             (snd (bind_arguments
                     (sqlite3_clear_bindings (sqlite3_reset (stmt cur)))
                     idxStr argv 0))) = SQLITE_ROW
      \/ fst (sqlite3_step
                (snd (bind_arguments
                        (sqlite3_clear_bindings (sqlite3_reset (stmt cur)))
                        idxStr argv 0))) = SQLITE_DONE)
  /\ Z.of_nat (length argv) <= num_inputs vt.
Proof.
  intros _. unfold statement_vtab_filter. cbn [stmt].
  destruct (bind_arguments _ idxStr argv 0) as [ret s]. cbn [fst snd].
  destruct (Z.eqb_spec ret SQLITE_OK) as [->|Hret]; cbn [negb].
  2: { split.
       - intros [cur1 Heq]. injection Heq as Heq _. contradiction.
       - intros [Heq _]. contradiction. }
  pose proof (sqlite3_step_not_ok s) as Hstep.
  destruct (sqlite3_step s) as [ret s']. cbn [fst] in *.
  destruct (Z.eqb_spec ret SQLITE_ROW) as [->|Hrow];
    [|destruct (Z.eqb_spec ret SQLITE_DONE) as [->|Hdone]];
    cbn [orb negb].
  3: { split.
       - intros [cur1 Heq]. injection Heq as Heq _. contradiction.
       - intros (_ & [?|?] & _); contradiction. }
  all: destruct (Z.geb_spec (num_inputs vt) (Z.of_nat (length argv)))
         as [Hge|Hlt]; cbn [negb].
  all: split;
    [ intros [cur1 Heq]; try discriminate; repeat split; auto; lia
    | intros (_ & _ & Hle); try lia; eexists; reflexivity ].
Qed.

(** X7. A bind that returns an error leaves the arguments captured by the
    previous scan in the cursor: the argument count and the argument buffer
    are as they were, while the row id is already back at 1. *)
Theorem failed_filter_keeps_previous_arguments
    (vt : statement_vtab) (cur cur1 : statement_cursor statement)
    (idxNum : Z) (idxStr : option (list Z)) (argv : list sqlite3_value)
    (rc : Z) :
  statement_vtab_filter vt cur idxNum idxStr argv = Returns rc cur1 ->
  rc <> SQLITE_OK ->
  param_argc cur1 = param_argc cur
  /\ param_argv cur1 = param_argv cur
  /\ rowid cur1 = 1.
Proof.
  unfold statement_vtab_filter. cbn [stmt].
  destruct (bind_arguments _ idxStr argv 0) as [ret s].
  destruct (negb (ret =? SQLITE_OK)).
  { intros Heq _. injection Heq as _ <-. repeat split. }
  destruct (sqlite3_step s) as [ret' s'].
  destruct (negb ((ret' =? SQLITE_ROW) || (ret' =? SQLITE_DONE))).
  { intros Heq _. injection Heq as _ <-. repeat split. }
  destruct (negb (num_inputs vt >=? Z.of_nat (length argv))); [discriminate|].
  intros Heq Hrc. injection Heq as <- _. contradiction.
Qed.

(** X8. The argument buffer keeps its size. When the buffer has one cell
    per input of the relation, as the open allocates it, it still has after
    any bind that returns and any number of advances: the copy of the
    arguments never reaches beyond the buffer. *)
Theorem argument_buffer_keeps_its_size
    (vt : statement_vtab) (cur cur1 : statement_cursor statement)
    (idxNum : Z) (idxStr : option (list Z)) (argv : list sqlite3_value)
    (rc : Z) (n : nat) :
  Z.of_nat (length (param_argv cur)) = num_inputs vt ->
  statement_vtab_filter vt cur idxNum idxStr argv = Returns rc cur1 ->
  length (param_argv (advance n cur1)) = length (param_argv cur).
Proof.
  intros Hsize Hfilter.
  destruct (CursorProofs.advance_keeps_arguments n cur1) as [_ ->].
  revert Hfilter. unfold statement_vtab_filter. cbn [stmt].
  destruct (bind_arguments _ idxStr argv 0) as [ret s].
  destruct (negb (ret =? SQLITE_OK)).
  { intros Heq. injection Heq as _ <-. reflexivity. }
  destruct (sqlite3_step s) as [ret' s'].
  destruct (negb ((ret' =? SQLITE_ROW) || (ret' =? SQLITE_DONE))).
  { intros Heq. injection Heq as _ <-. reflexivity. }
  destruct (Z.geb_spec (num_inputs vt) (Z.of_nat (length argv)))
    as [Hge|Hlt]; cbn [negb]; [|discriminate].
  intros Heq. injection Heq as _ <-. cbn [param_argv].
  destruct (Z.of_nat (length argv) =? 0); [reflexivity|].
  unfold memcpy. rewrite length_app, length_drop. lia.
Qed.

(** X9. An advance returns [SQLITE_OK] exactly when the execution step
    produced a row or reached the end; any other code of the step is
    returned as it is. *)
Theorem next_returns_ok_or_the_error (cur : statement_cursor statement) :
  (fst (statement_vtab_next cur) = SQLITE_OK
   <-> fst (sqlite3_step (stmt cur)) = SQLITE_ROW
       \/ fst (sqlite3_step (stmt cur)) = SQLITE_DONE)
  /\ (fst (statement_vtab_next cur) <> SQLITE_OK ->
      fst (statement_vtab_next cur) = fst (sqlite3_step (stmt cur)))
  /\ stmt (snd (statement_vtab_next cur)) = snd (sqlite3_step (stmt cur)).
Proof.
  unfold statement_vtab_next.
  pose proof (sqlite3_step_not_ok (stmt cur)) as Hstep.
  destruct (sqlite3_step (stmt cur)) as [ret s]. cbn [fst snd] in *.
  destruct (Z.eqb_spec ret SQLITE_ROW) as [->|Hrow].
  { cbn. repeat split; auto. intros Hne. now destruct Hne. }
  destruct (Z.eqb_spec ret SQLITE_DONE) as [->|Hdone].
  { cbn. repeat split; auto. intros Hne. now destruct Hne. }
  cbn [fst snd with_stmt stmt]. repeat split; auto.
  - intros Heq. contradiction.
  - intros [?|?]; contradiction.
Qed.

End WithService.

(** One input, one argument, one row: the bind returns [SQLITE_OK]. *)
Lemma filter_succeeds_witness :
  exists cur1,
    statement_vtab_filter (Plan.relation 1 1)
      (cursor_over [[SqlText "a"]] 0 [SqlNull]) 0 None [SqlInteger 1]
    = Returns SQLITE_OK cur1.
Proof.
  apply (filter_succeeds_exactly_when (Plan.relation 1 1)
           (cursor_over [[SqlText "a"]] 0 [SqlNull]) 0 None [SqlInteger 1]).
  - reflexivity.
  - split; [reflexivity|]. split; [left; reflexivity|]. simpl. lia.
Defined.

Lemma failed_filter_witness :
  param_argc
    {| stmt := {| pending := []; current := None; bindings := [] |};
       rowid := 1; param_argc := 7; param_argv := [SqlText "old"] |}
  = param_argc (cursor_over [] 7 [SqlText "old"])
  /\ param_argv
       {| stmt := {| pending := []; current := None; bindings := [] |};
          rowid := 1; param_argc := 7; param_argv := [SqlText "old"] |}
     = param_argv (cursor_over [] 7 [SqlText "old"])
  /\ rowid
       {| stmt := {| pending := []; current := None; bindings := [] |};
          rowid := 1; param_argc := 7; param_argv := [SqlText "old"] |}
     = 1.
Proof.
  apply (failed_filter_keeps_previous_arguments
           (H := Binding.refusing_service)
           (Plan.relation 1 1) (cursor_over [] 7 [SqlText "old"]) _
           0 None [SqlInteger 1] 25).
  - reflexivity.
  - discriminate.
Defined.

Lemma argument_buffer_witness :
  length
    (param_argv
       (advance 1
          {| stmt :=
               {| pending := [[SqlText "b"]];
                  current := Some [SqlText "a"];
                  bindings := [(1, SqlInteger 1)] |};
             rowid := 1; param_argc := 1;
             param_argv := [SqlInteger 1; SqlNull] |}))
  = length (param_argv (cursor_over [[SqlText "a"]; [SqlText "b"]] 0
                          [SqlNull; SqlNull])).
Proof.
  apply (argument_buffer_keeps_its_size (Plan.relation 1 2)
           (cursor_over [[SqlText "a"]; [SqlText "b"]] 0 [SqlNull; SqlNull])
           _ 0 None [SqlInteger 1] SQLITE_OK 1).
  - reflexivity.
  - reflexivity.
Defined.

End CursorExtras.

(** ** Creation in every outcome *)

Module SchemaExtras.
Import Schema Columns SchemaProofs.

Lemma output_columns_none cols :
  output_columns cols = None ->
  exists i type, cols !! i = Some (None, type).
Proof.
  induction cols as [|[[name|] t] rest IH]; simpl; try discriminate.
  - destruct (output_columns rest); [discriminate|].
    intros _. destruct (IH eq_refl) as (i & type & Hi).
    now exists (S i), type.
  - intros _. now exists 0%nat, t.
Qed.

(** X10. [build_create_statement] returns a null pointer in exactly two
    cases: the text could not be allocated, or some result column has no
    name. *)
Theorem build_create_statement_fails_exactly_when
    (str_ok : bool) (s : sqlite3_stmt) :
  sqlite3_column_count s <= INT_MAX ->
  sqlite3_bind_parameter_count s <= INT_MAX ->
  build_create_statement str_ok s = None
  <-> str_ok = false \/ exists i type, columns s !! i = Some (None, type).
Proof.
  intros Hc Hp. rewrite (build_create_statement_spec str_ok s Hc Hp).
  unfold derived_schema.
  destruct (output_columns (columns s)) as [outs|] eqn:Houts.
  - destruct str_ok; split; try discriminate; auto.
    intros [Hstr|(i & type & Hi)]; [discriminate|].
    rewrite (output_columns_unnamed _ _ _ Hi) in Houts. discriminate.
  - split; [|reflexivity]. intros _. right. now apply output_columns_none.
Qed.

Lemma build_create_statement_fails_witness :
  build_create_statement true select_unnamed = None.
Proof.
  apply (build_create_statement_fails_exactly_when true select_unnamed).
  - vm_compute. discriminate.
  - vm_compute. discriminate.
  - right. exists 0%nat, None. reflexivity.
Defined.

(** *** The shape of the declaration *)

Lemma close_paren_last (a : string) (c : ascii) :
  close_paren (a ++ String c EmptyString)%string = (a ++ ")")%string.
Proof.
  induction a as [|x a IH]; [reflexivity|].
  cbn [append close_paren]. rewrite IH.
  destruct (a ++ String c EmptyString)%string eqn:Ha; [|reflexivity].
  destruct a; discriminate.
Qed.

Lemma column_text_comma (c : column) :
  exists body, column_text c = (body ++ ",")%string.
Proof.
  unfold column_text. destruct (column_role c).
  - eexists. rewrite <- !append_assoc. reflexivity.
  - exists (format_Q (column_name c) ++ " hidden")%string.
    now rewrite append_assoc.
Qed.

Lemma columns_text_comma (cs : list column) :
  cs <> [] -> exists body, columns_text cs = (body ++ ",")%string.
Proof.
  induction cs as [|c rest IH]; [congruence|]. intros _.
  destruct rest as [|c' rest].
  - destruct (column_text_comma c) as [body Hbody]. exists body.
    cbn [columns_text]. now rewrite append_empty_r.
  - destruct (IH ltac:(discriminate)) as [body Hbody].
    exists (column_text c ++ body)%string.
    cbn [columns_text] in *. rewrite Hbody. now rewrite append_assoc.
Qed.

(** X11. The text that [build_create_statement] returns is closed by
    writing [)] over its last character: over the space after the opening
    parenthesis when the statement has neither result columns nor
    parameters, which gives [CREATE TABLE x()], and over the comma after the
    last column otherwise. *)
Theorem declaration_closes_over_the_last_character
    (s : sqlite3_stmt) (text : string) :
  sqlite3_column_count s <= INT_MAX ->
  sqlite3_bind_parameter_count s <= INT_MAX ->
  build_create_statement true s = Some text ->
  (columns s = [] -> parameters s = [] ->
   text = "CREATE TABLE x()"%string)
  /\ (columns s <> [] \/ parameters s <> [] ->
      exists cols body,
        derived_schema s = Some cols
        /\ columns_text cols = (body ++ ",")%string
        /\ text = ("CREATE TABLE x( " ++ body ++ ")")%string).
Proof.
  intros Hc Hp Hbuild. split.
  - intros Hcols Hparams. revert Hbuild.
    unfold build_create_statement, sqlite3_column_count,
      sqlite3_bind_parameter_count.
    rewrite Hcols, Hparams. cbn. now intros [= <-].
  - intros Hsome. rewrite (build_create_statement_spec true s Hc Hp) in Hbuild.
    destruct (derived_schema s) as [cols|] eqn:Hschema; [|discriminate].
    injection Hbuild as <-.
    assert (Hne : cols <> []).
    { unfold derived_schema in Hschema.
      destruct (output_columns (columns s)) as [outs|] eqn:Houts;
        [|discriminate].
      injection Hschema as <-.
      destruct (output_columns_lookup _ _ Houts) as [Hlen _].
      destruct (input_columns_lookup (parameters s) 1) as [Hlen' _].
      intros Hnil. apply (f_equal (@length column)) in Hnil.
      rewrite length_app, Hlen, Hlen' in Hnil. simpl in Hnil.
      destruct Hsome as [Hx|Hx]; apply Hx;
        [destruct (columns s)|destruct (parameters s)];
        simpl in *; try reflexivity; lia. }
    destruct (columns_text_comma cols Hne) as [body Hbody].
    exists cols, body. split; [reflexivity|]. split; [exact Hbody|].
    unfold declaration. rewrite Hbody, <- append_assoc.
    rewrite close_paren_last. now rewrite append_assoc.
Qed.

Lemma declaration_closes_witness :
  exists cols body,
    derived_schema select_v = Some cols
    /\ columns_text cols = (body ++ ",")%string
    /\ "CREATE TABLE x( 'v' TEXT,'k' hidden)"%string
       = ("CREATE TABLE x( " ++ body ++ ")")%string.
Proof.
  destruct (declaration_closes_over_the_last_character select_v
              "CREATE TABLE x( 'v' TEXT,'k' hidden)") as [_ Hsome].
  - vm_compute. discriminate.
  - vm_compute. discriminate.
  - reflexivity.
  - apply Hsome. left. discriminate.
Defined.

(** *** What creation leaves behind *)

Lemma report_outcome (a : allocator) (rc : Z) (msg : string) :
  rc <> SQLITE_OK ->
  ppVtab (report a rc msg) = None
  /\ code (report a rc msg) <> SQLITE_OK
  /\ (code (report a rc msg) <> SQLITE_NOMEM ->
      pzErr (report a rc msg) = Some msg /\ code (report a rc msg) = rc)
  /\ (alloc_message a = false ->
      code (report a rc msg) = SQLITE_NOMEM /\ pzErr (report a rc msg) = None).
Proof.
  intros Hrc. unfold report. destruct (alloc_message a); cbn.
  - split; [reflexivity|]. split; [exact Hrc|].
    split; [intros _; split; reflexivity|discriminate].
  - split; [reflexivity|]. split; [discriminate|].
    split; [intros Hne; now destruct Hne|intros _; split; reflexivity].
Qed.

(** X12. Creation leaves nothing half-made: it hands over a relation
    exactly when it returns [SQLITE_OK], and then sets no message; and
    every failure with a code other than [SQLITE_NOMEM] comes with a
    message. *)
Theorem create_hands_over_a_relation_or_an_error
    (a : allocator) (db : sqlite3) (argv : list string) :
  (ppVtab (statement_vtab_create a db argv) = None
   <-> code (statement_vtab_create a db argv) <> SQLITE_OK)
  /\ (code (statement_vtab_create a db argv) = SQLITE_OK ->
      pzErr (statement_vtab_create a db argv) = None)
  /\ (code (statement_vtab_create a db argv) <> SQLITE_OK ->
      code (statement_vtab_create a db argv) <> SQLITE_NOMEM ->
      exists msg, pzErr (statement_vtab_create a db argv) = Some msg).
Proof.
  assert (Hreport : forall rc msg,
            rc <> SQLITE_OK ->
            (ppVtab (report a rc msg) = None
             <-> code (report a rc msg) <> SQLITE_OK)
            /\ (code (report a rc msg) = SQLITE_OK ->
                pzErr (report a rc msg) = None)
            /\ (code (report a rc msg) <> SQLITE_OK ->
                code (report a rc msg) <> SQLITE_NOMEM ->
                exists msg', pzErr (report a rc msg) = Some msg')).
  { intros rc msg Hrc.
    destruct (report_outcome a rc msg Hrc) as (Hv & Hc & Hm & _).
    repeat split; auto.
    - intros Hok. contradiction.
    - intros _ Hne. destruct (Hm Hne) as [-> _]. eauto. }
  assert (Hnomem :
            (ppVtab {| code := SQLITE_NOMEM; ppVtab := None; pzErr := None |}
             = None
             <-> code {| code := SQLITE_NOMEM; ppVtab := None; pzErr := None |}
                 <> SQLITE_OK)
            /\ (code {| code := SQLITE_NOMEM; ppVtab := None; pzErr := None |}
                = SQLITE_OK ->
                pzErr {| code := SQLITE_NOMEM; ppVtab := None; pzErr := None |}
                = None)
            /\ (code {| code := SQLITE_NOMEM; ppVtab := None; pzErr := None |}
                <> SQLITE_OK ->
                code {| code := SQLITE_NOMEM; ppVtab := None; pzErr := None |}
                <> SQLITE_NOMEM ->
                exists msg,
                  pzErr {| code := SQLITE_NOMEM; ppVtab := None;
                           pzErr := None |} = Some msg)).
  { cbn. repeat split; auto; try discriminate. intros _ Hne. now destruct Hne. }
  unfold statement_vtab_create.
  destruct (if Z.of_nat (length argv) <? 4 then None else argv !! 3%nat)
    as [arg|]; [|apply Hreport; discriminate].
  cbv zeta.
  destruct (strlen arg <? 3); [apply Hreport; discriminate|].
  destruct (negb (is_char (char_at arg 0) "(")
            || negb (is_char (char_at arg (strlen arg - 1)) ")"));
    [apply Hreport; discriminate|].
  destruct (negb (alloc_vtab a)); [exact Hnomem|].
  destruct (negb (alloc_sql a)); [exact Hnomem|].
  destruct (sqlite3_prepare_v2 db _) as [ret stmt].
  destruct (Z.eqb_spec ret SQLITE_OK) as [->|Hret]; cbn [negb];
    [|now apply Hreport].
  destruct (negb (sqlite3_stmt_readonly stmt));
    [apply Hreport; discriminate|].
  destruct (build_create_statement (alloc_str a) stmt) as [create|];
    [|exact Hnomem].
  destruct (Z.eqb_spec (sqlite3_declare_vtab db create) SQLITE_OK)
    as [Hdecl|Hdecl]; cbn [negb]; [|now apply Hreport].
  cbn. repeat split; auto; try discriminate.
  - intros Hne. now destruct Hne.
  - intros Hne. now destruct Hne.
Qed.

(** Reading a handed-over relation backwards through
    [statement_vtab_create]: the branches that were taken. *)
Lemma create_success_inversion
    (a : allocator) (db : sqlite3) (argv : list string)
    (vt : statement_vtab) :
  ppVtab (statement_vtab_create a db argv) = Some vt ->
  exists arg body stmt text,
    argv !! 3%nat = Some arg
    /\ parenthesized arg body
    /\ body <> EmptyString
    /\ sqlite3_prepare_v2 db body = (SQLITE_OK, stmt)
    /\ sqlite3_stmt_readonly stmt = true
    /\ build_create_statement (alloc_str a) stmt = Some text
    /\ sqlite3_declare_vtab db text = SQLITE_OK
    /\ vt = {| sql := body; sql_len := strlen body;
               num_inputs := sqlite3_bind_parameter_count stmt;
               num_outputs := sqlite3_column_count stmt |}.
Proof.
  unfold statement_vtab_create.
  destruct (Z.ltb_spec (Z.of_nat (length argv)) 4) as [|Hargc].
  { unfold report. destruct (alloc_message a); discriminate. }
  destruct (argv !! 3%nat) as [arg|] eqn:Harg;
    [|unfold report; destruct (alloc_message a); discriminate].
  cbv zeta.
  destruct (Z.ltb_spec (strlen arg) 3) as [|Hlen];
    [unfold report; destruct (alloc_message a); discriminate|].
  destruct (is_char (char_at arg 0) "(") eqn:Hfirst; cbn [negb orb];
    [|unfold report; destruct (alloc_message a); discriminate].
  destruct (is_char (char_at arg (strlen arg - 1)) ")") eqn:Hlast;
    cbn [negb];
    [|unfold report; destruct (alloc_message a); discriminate].
  destruct (checks_parenthesized arg Hlen Hfirst Hlast) as [body Hparen].
  assert (Hbody : body <> EmptyString).
  { intros ->. unfold parenthesized in Hparen. subst arg.
    unfold strlen in Hlen. cbn [append String.length] in Hlen. lia. }
  destruct (parenthesized_checks _ _ Hparen Hbody)
    as (_ & _ & _ & Hsub & Hsqllen).
  rewrite Hsub, Hsqllen.
  destruct (negb (alloc_vtab a)); [discriminate|].
  destruct (negb (alloc_sql a)); [discriminate|].
  destruct (sqlite3_prepare_v2 db body) as [ret stmt] eqn:Hprep.
  destruct (Z.eqb_spec ret SQLITE_OK) as [->|Hret]; cbn [negb];
    [|unfold report; destruct (alloc_message a); discriminate].
  destruct (sqlite3_stmt_readonly stmt) eqn:Hro; cbn [negb];
    [|unfold report; destruct (alloc_message a); discriminate].
  destruct (build_create_statement (alloc_str a) stmt) as [create|] eqn:Hbuild;
    [|discriminate].
  destruct (Z.eqb_spec (sqlite3_declare_vtab db create) SQLITE_OK)
    as [Hdecl|Hdecl]; cbn [negb];
    [|unfold report; destruct (alloc_message a); discriminate].
  cbn [ppVtab]. intros Hvt. injection Hvt as <-.
  exists arg, body, stmt, create. repeat split; assumption.
Qed.

(** X13. A created relation tells what was checked. When creation hands
    over a relation, the fourth module argument is the stored statement text
    between parentheses, the text is not empty and [sql_len] is its length,
    the host prepared this text to a read-only statement whose counts are
    the relation's [num_outputs] and [num_inputs], and the host accepted the
    declaration that [build_create_statement] built from the statement. *)
Theorem created_relation_was_validated
    (a : allocator) (db : sqlite3) (argv : list string)
    (vt : statement_vtab) :
  ppVtab (statement_vtab_create a db argv) = Some vt ->
  argv !! 3%nat = Some ("(" ++ sql vt ++ ")")%string
  /\ sql vt <> EmptyString
  /\ sql_len vt = strlen (sql vt)
  /\ fst (sqlite3_prepare_v2 db (sql vt)) = SQLITE_OK
  /\ sqlite3_stmt_readonly (snd (sqlite3_prepare_v2 db (sql vt))) = true
  /\ num_outputs vt
     = sqlite3_column_count (snd (sqlite3_prepare_v2 db (sql vt)))
  /\ num_inputs vt
     = sqlite3_bind_parameter_count (snd (sqlite3_prepare_v2 db (sql vt)))
  /\ exists text,
       build_create_statement true (snd (sqlite3_prepare_v2 db (sql vt)))
       = Some text
       /\ sqlite3_declare_vtab db text = SQLITE_OK.
Proof.
  intros Hvt.
  destruct (create_success_inversion a db argv vt Hvt)
    as (arg & body & stmt & text & Harg & Hparen & Hbody & Hprep & Hro
        & Hbuild & Hdecl & ->).
  unfold parenthesized in Hparen. subst arg.
  cbn [sql sql_len num_inputs num_outputs]. rewrite Hprep. cbn [fst snd].
  repeat split; try assumption; try reflexivity.
  exists text. split; [|exact Hdecl].
  destruct (alloc_str a); [exact Hbuild|].
  rewrite build_create_statement_unallocated in Hbuild. discriminate.
Qed.

Lemma created_relation_witness :
  module_arguments "(SELECT v FROM t WHERE k = :k)" !! 3%nat
  = Some ("(" ++ sql {| sql := "SELECT v FROM t WHERE k = :k";
                        sql_len := 28; num_inputs := 1; num_outputs := 1 |}
          ++ ")")%string.
Proof.
  apply (created_relation_was_validated all_succeed
           (connection select_v SQLITE_OK EmptyString)
           (module_arguments "(SELECT v FROM t WHERE k = :k)")
           {| sql := "SELECT v FROM t WHERE k = :k";
              sql_len := 28; num_inputs := 1; num_outputs := 1 |}).
  reflexivity.
Defined.

(** X14. The host's own errors are passed on. For a well-formed argument,
    when the host cannot prepare the statement text, and likewise when it
    rejects the declaration of the derived schema, creation returns the
    host's code with the host's error text as the message, and hands over
    no relation. *)
Theorem create_passes_on_host_errors
    (a : allocator) (db : sqlite3) (argv : list string)
    (arg body : string) (stmt : sqlite3_stmt) (rc : Z) :
  argv !! 3%nat = Some arg ->
  parenthesized arg body ->
  body <> EmptyString ->
  alloc_message a = true ->
  alloc_vtab a = true ->
  alloc_sql a = true ->
  rc <> SQLITE_OK ->
  (sqlite3_prepare_v2 db body = (rc, stmt) ->
   statement_vtab_create a db argv
   = {| code := rc; ppVtab := None; pzErr := Some (sqlite3_errmsg db rc) |})
  /\ (forall text,
        sqlite3_prepare_v2 db body = (SQLITE_OK, stmt) ->
        sqlite3_stmt_readonly stmt = true ->
        build_create_statement (alloc_str a) stmt = Some text ->
        sqlite3_declare_vtab db text = rc ->
        statement_vtab_create a db argv
        = {| code := rc; ppVtab := None;
             pzErr := Some (sqlite3_errmsg db rc) |}).
Proof.
  intros Harg Hparen Hbody Hmsg Hvtab Hsql Hrc.
  rewrite (create_parenthesized a db argv arg body) by assumption.
  apply Z.eqb_neq in Hrc. split.
  - intros ->. rewrite Hrc. cbn [negb]. unfold report. now rewrite Hmsg.
  - intros text -> Hro Hbuild Hdecl.
    rewrite Hro, Hbuild, Hdecl, Hrc. cbn [Z.eqb SQLITE_OK negb].
    unfold report. now rewrite Hmsg.
Qed.

Lemma create_passes_on_witness :
  statement_vtab_create all_succeed
    (connection select_k_v SQLITE_ERROR "duplicate column name: k")
    (module_arguments "(SELECT k, v FROM t WHERE k = :k)")
  = {| code := SQLITE_ERROR; ppVtab := None;
       pzErr :=
         Some (sqlite3_errmsg
                 (connection select_k_v SQLITE_ERROR
                    "duplicate column name: k")
                 SQLITE_ERROR) |}.
Proof.
  destruct (create_passes_on_host_errors all_succeed
              (connection select_k_v SQLITE_ERROR "duplicate column name: k")
              (module_arguments "(SELECT k, v FROM t WHERE k = :k)")
              "(SELECT k, v FROM t WHERE k = :k)"
              "SELECT k, v FROM t WHERE k = :k" select_k_v SQLITE_ERROR)
    as [_ Hdecl];
    [ reflexivity | reflexivity | discriminate | reflexivity | reflexivity
    | reflexivity | discriminate | ].
  apply (Hdecl "CREATE TABLE x( 'k' INTEGER,'v' TEXT,'k' hidden)"%string);
    reflexivity.
Defined.

(** X15. Every allocation that fails is reported as [SQLITE_NOMEM] and
    nothing else: for a well-formed argument, a failed allocation of the
    relation or of the copy of the statement text returns [SQLITE_NOMEM]
    without a message; and when error messages cannot be allocated,
    creation, on any input, either succeeds or returns [SQLITE_NOMEM]
    without a message. *)
Theorem create_reports_failed_allocations_as_nomem
    (a : allocator) (db : sqlite3) (argv : list string) :
  (forall arg body,
     argv !! 3%nat = Some arg ->
     parenthesized arg body ->
     body <> EmptyString ->
     alloc_vtab a = false \/ alloc_sql a = false ->
     statement_vtab_create a db argv
     = {| code := SQLITE_NOMEM; ppVtab := None; pzErr := None |})
  /\ (alloc_message a = false ->
      code (statement_vtab_create a db argv) = SQLITE_OK
      \/ (code (statement_vtab_create a db argv) = SQLITE_NOMEM
          /\ pzErr (statement_vtab_create a db argv) = None)).
Proof.
  split.
  - intros arg body Harg Hparen Hbody Halloc.
    destruct (parenthesized_checks _ _ Hparen Hbody)
      as (Hlen & Hfirst & Hlast & _).
    unfold statement_vtab_create.
    rewrite (fourth_argument _ _ Harg). cbv zeta.
    rewrite Hlen, Hfirst, Hlast. cbn [negb orb].
    destruct (alloc_vtab a); [|reflexivity].
    destruct Halloc as [Hv|Hs]; [discriminate|]. now rewrite Hs.
  - intros Hmsg.
    assert (Hreport : forall rc msg,
              code (report a rc msg) = SQLITE_OK
              \/ (code (report a rc msg) = SQLITE_NOMEM
                  /\ pzErr (report a rc msg) = None)).
    { intros rc msg. unfold report. rewrite Hmsg. right. split; reflexivity. }
    unfold statement_vtab_create.
    destruct (if Z.of_nat (length argv) <? 4 then None else argv !! 3%nat)
      as [arg|]; [|apply Hreport].
    cbv zeta.
    destruct (strlen arg <? 3); [apply Hreport|].
    destruct (negb (is_char (char_at arg 0) "(")
              || negb (is_char (char_at arg (strlen arg - 1)) ")"));
      [apply Hreport|].
    destruct (negb (alloc_vtab a)); [right; split; reflexivity|].
    destruct (negb (alloc_sql a)); [right; split; reflexivity|].
    destruct (sqlite3_prepare_v2 db _) as [ret stmt].
    destruct (negb (ret =? SQLITE_OK)); [apply Hreport|].
    destruct (negb (sqlite3_stmt_readonly stmt)); [apply Hreport|].
    destruct (build_create_statement (alloc_str a) stmt) as [create|];
      [|right; split; reflexivity].
    destruct (negb (sqlite3_declare_vtab db create =? SQLITE_OK));
      [apply Hreport|].
    left. reflexivity.
Qed.

Lemma create_reports_failed_allocations_witness :
  statement_vtab_create
    {| alloc_message := true; alloc_vtab := true;
       alloc_sql := false; alloc_str := true |}
    (connection select_v SQLITE_OK EmptyString)
    (module_arguments "(SELECT v FROM t WHERE k = :k)")
  = {| code := SQLITE_NOMEM; ppVtab := None; pzErr := None |}.
Proof.
  destruct (create_reports_failed_allocations_as_nomem
              {| alloc_message := true; alloc_vtab := true;
                 alloc_sql := false; alloc_str := true |}
              (connection select_v SQLITE_OK EmptyString)
              (module_arguments "(SELECT v FROM t WHERE k = :k)"))
    as [Halloc _].
  apply (Halloc "(SELECT v FROM t WHERE k = :k)"%string
           "SELECT v FROM t WHERE k = :k"%string).
  - reflexivity.
  - reflexivity.
  - discriminate.
  - right. reflexivity.
Defined.

End SchemaExtras.

(** ** A whole scan: plan, bind, read *)

Module ScanExtras.
Import Planner Plan PlannerProofs Cursor Binding.

Section WithService.

Context {statement : Type} `{StatementService statement}.

Lemma filter_ok_within_inputs vt (cur cur1 : statement_cursor statement)
    idxNum idxStr argv :
  statement_vtab_filter vt cur idxNum idxStr argv = Returns SQLITE_OK cur1 ->
  Z.of_nat (length argv) <= num_inputs vt.
Proof.
  unfold statement_vtab_filter. cbn [stmt].
  destruct (bind_arguments _ idxStr argv 0) as [ret s].
  destruct (Z.eqb_spec ret SQLITE_OK) as [->|Hret]; cbn [negb].
  2: { intros Heq. injection Heq as Heq _. contradiction. }
  pose proof (sqlite3_step_not_ok s) as Hstep.
  destruct (sqlite3_step s) as [ret s']. cbn [fst] in Hstep.
  destruct ((ret =? SQLITE_ROW) || (ret =? SQLITE_DONE)); cbn [negb].
  2: { intros Heq. injection Heq as Heq _. contradiction. }
  destruct (Z.geb_spec (num_inputs vt) (Z.of_nat (length argv)));
    cbn [negb]; [lia|discriminate].
Qed.

(** After a successful bind, the column at [num_outputs + k] reads the
    argument at position [k]. *)
Lemma column_reads_argument vt (cur cur1 : statement_cursor statement)
    idxNum idxStr argv n ctx k v :
  statement_vtab_filter vt cur idxNum idxStr argv = Returns SQLITE_OK cur1 ->
  0 <= num_outputs vt ->
  Z.of_nat k <= INT_MAX ->
  argv !! k = Some v ->
  statement_vtab_column vt (advance n cur1) ctx (num_outputs vt + Z.of_nat k)
  = (SQLITE_OK, sqlite3_result_value ctx v).
Proof.
  intros Hfilter Hnout Hk Hv.
  destruct (CursorProofs.filter_captures_arguments _ _ _ _ _ _ Hfilter)
    as [Hargc Hargv].
  destruct (CursorProofs.advance_keeps_arguments n cur1) as [Hc Hb].
  pose proof (lookup_lt_Some _ _ _ Hv) as Hlt.
  unfold statement_vtab_column. rewrite Hc, Hb, Hargc.
  destruct (Z.ltb_spec (num_outputs vt + Z.of_nat k) (num_outputs vt));
    [lia|].
  rewrite int_sub_small by (unfold INT_MAX in *; lia).
  replace (num_outputs vt + Z.of_nat k - num_outputs vt) with (Z.of_nat k)
    by lia.
  destruct (Z.ltb_spec (Z.of_nat k) (Z.of_nat (length argv))); [|lia].
  rewrite Nat2Z.id, (Hargv _ Hlt), Hv. reflexivity.
Qed.

(** X17. Hidden columns are read back by argument position. After a plan
    the planner accepted, arguments the host built from it and a successful
    bind, the value compared with a predicate is read back, on every row,
    from the hidden column at the predicate's argument position: under the
    identity order that is the predicate's own column; under an index map
    it is the hidden column numbered by the predicate's rank among the
    consumed predicates, whatever column the predicate names. *)
Theorem hidden_column_reads_by_argument_position
    (m : option (nat -> Z)) (vt : statement_vtab)
    (info : sqlite3_index_info) (values argv : list sqlite3_value)
    (cur cur1 : statement_cursor statement) (idxNum : Z) (n : nat)
    (ctx : sqlite3_context) (i : nat) (c : sqlite3_index_constraint)
    (v : sqlite3_value) :
  host_prepared vt info = true ->
  fst (statement_vtab_best_index m vt info) = SQLITE_OK ->
  host_arguments (aConstraintUsage (snd (statement_vtab_best_index m vt info)))
    values argv ->
  statement_vtab_filter vt cur idxNum
    (idxStr (snd (statement_vtab_best_index m vt info))) argv
  = Returns SQLITE_OK cur1 ->
  aConstraint info !! i = Some c ->
  num_outputs vt <= iColumn c ->
  values !! i = Some v ->
  (idxStr (snd (statement_vtab_best_index m vt info)) = None ->
   statement_vtab_column vt (advance n cur1) ctx (iColumn c)
   = (SQLITE_OK, sqlite3_result_value ctx v))
  /\ (idxStr (snd (statement_vtab_best_index m vt info)) <> None ->
      statement_vtab_column vt (advance n cur1) ctx
        (num_outputs vt + rank (num_outputs vt) (aConstraint info) i)
      = (SQLITE_OK, sqlite3_result_value ctx v)).
Proof.
  intros Hp Hok Hargv Hfilter Hi Hcol Hv.
  destruct (host_prepared_spec _ _ Hp) as (Hn & _ & Hall & Hlen & Hidx & _).
  assert (Hin : In c (aConstraint info)).
  { apply list_elem_of_In. eapply list_elem_of_lookup_2. exact Hi. }
  rewrite List.Forall_forall in Hall. specialize (Hall c Hin).
  pose proof Hcol as Hh. apply hidden_spec in Hh.
  destruct (feasible (num_outputs vt) (aConstraint info)) eqn:Hf.
  2: { destruct (best_index_cases m vt info Hf) as (Hrc & _).
       rewrite Hrc in Hok. discriminate. }
  revert Hok Hargv Hfilter.
  rewrite (best_index_feasible m vt info Hp Hf). cbv zeta.
  destruct ((Z.of_nat _ =? 0) || _); [|destruct m as [junk|]];
    cbn [fst snd set_idxStr set_usage set_plan_constants idxStr
         aConstraintUsage]; try discriminate.
  - intros _ Hargv Hfilter. split; [|intros Hne; now destruct Hne].
    intros _.
    pose proof (Hargv i _ v (identity_usage_lookup _ _ _ _ Hi)) as Ha.
    unfold identity_usage in Ha. rewrite Hh in Ha.
    cbn [consumed argvIndex] in Ha. specialize (Ha ltac:(lia) Hv).
    replace (iColumn c - num_outputs vt + 1 - 1)
      with (iColumn c - num_outputs vt) in Ha by lia.
    replace (iColumn c)
      with (num_outputs vt
            + Z.of_nat (Z.to_nat (iColumn c - num_outputs vt))) at 1 by lia.
    eapply column_reads_argument; [exact Hfilter|assumption| |exact Ha].
    unfold INT_MAX in *. lia.
  - intros _ Hargv Hfilter. split; [discriminate|]. intros _.
    pose proof (dense_usage_lookup (num_outputs vt) (aConstraint info) 0 _ _ Hi)
      as Hu.
    rewrite Hh in Hu.
    pose proof (ContractExtras.rank_nonneg (num_outputs vt)
                  (aConstraint info) i) as Hr.
    pose proof (ContractExtras.rank_below_count _ _ _ _ Hi Hh) as Hrc.
    pose proof (Hargv i _ v Hu ltac:(cbn; lia) Hv) as Ha.
    cbn [argvIndex] in Ha.
    replace (0 + rank (num_outputs vt) (aConstraint info) i + 1 - 1)
      with (rank (num_outputs vt) (aConstraint info) i) in Ha by lia.
    replace (rank (num_outputs vt) (aConstraint info) i)
      with (Z.of_nat (Z.to_nat (rank (num_outputs vt) (aConstraint info) i)))
      at 1 by lia.
    eapply column_reads_argument; [exact Hfilter|assumption| |exact Ha].
    unfold hidden_columns in Hrc. rewrite length_map in Hrc.
    pose proof (List.filter_length_le (hidden (num_outputs vt))
                  (aConstraint info)).
    unfold INT_MAX in *. lia.
Qed.

(** X18. An index map has one entry for every predicate on a hidden
    column, repeated columns included; when these are more than the
    relation has inputs, no bind with that many arguments returns
    [SQLITE_OK]. *)
Theorem index_map_counts_every_predicate
    (junk : nat -> Z) (vt : statement_vtab) (info : sqlite3_index_info) :
  host_prepared vt info = true ->
  feasible (num_outputs vt) (aConstraint info) = true ->
  contiguousb (hidden_columns (num_outputs vt) (aConstraint info)) = false
  \/ 64 < col_bound (hidden_columns (num_outputs vt) (aConstraint info)) ->
  exists colmap,
    idxStr (snd (statement_vtab_best_index (Some junk) vt info))
    = Some colmap
    /\ length colmap
       = length (List.filter (hidden (num_outputs vt)) (aConstraint info))
    /\ (num_inputs vt < Z.of_nat (length colmap) ->
        forall (cur cur1 : statement_cursor statement) idxNum argv,
          length argv = length colmap ->
          statement_vtab_filter vt cur idxNum (Some colmap) argv
          <> Returns SQLITE_OK cur1).
Proof.
  intros Hp Hf Hshape.
  rewrite (best_index_feasible (Some junk) vt info Hp Hf). cbv zeta.
  rewrite (identity_test_false _ _ Hshape).
  cbn [snd set_idxStr idxStr].
  eexists. split; [reflexivity|]. split.
  - unfold hidden_columns. now rewrite !length_map.
  - intros Hmore cur cur1 idxNum argv Hlen Hfilter.
    apply filter_ok_within_inputs in Hfilter. lia.
Qed.

End WithService.

(** Equalities on hidden columns 2 and 0, compared with ["c"] and ["a"]:
    the map is [3; 1], the arguments are ["c"; "a"], and ["c"], the value
    for hidden column 2, is read back from hidden column 0. *)
Lemma hidden_column_reads_witness :
  statement_vtab_column (relation 1 3)
    (advance 0
       {| stmt :=
            {| pending := [];
               current := Some [SqlText "row"];
               bindings := [(1, SqlText "a"); (3, SqlText "c")] |};
          rowid := 1; param_argc := 2;
          param_argv := [SqlText "c"; SqlText "a"; SqlNull] |})
    new_context
    (num_outputs (relation 1 3)
     + rank (num_outputs (relation 1 3))
         (aConstraint (request [equality_on 3; equality_on 1])) 0)
  = (SQLITE_OK, sqlite3_result_value new_context (SqlText "c")).
Proof.
  destruct (hidden_column_reads_by_argument_position
              (Some (fun _ => 0)) (relation 1 3)
              (request [equality_on 3; equality_on 1])
              [SqlText "c"; SqlText "a"] [SqlText "c"; SqlText "a"]
              (cursor_over [[SqlText "row"]] 0 [SqlNull; SqlNull; SqlNull])
              {| stmt :=
                   {| pending := [];
                      current := Some [SqlText "row"];
                      bindings := [(1, SqlText "a"); (3, SqlText "c")] |};
                 rowid := 1; param_argc := 2;
                 param_argv := [SqlText "c"; SqlText "a"; SqlNull] |}
              0 0%nat new_context 0%nat (equality_on 3) (SqlText "c"))
    as [_ Hmap].
  - reflexivity.
  - reflexivity.
  - intros [|[|i]] u v Hu Hpos Hv; cbn in Hu, Hv; try discriminate;
      injection Hu as <-; injection Hv as <-; reflexivity.
  - reflexivity.
  - reflexivity.
  - simpl. lia.
  - reflexivity.
  - apply Hmap. discriminate.
Defined.

(** Three equalities on hidden column 0 and one on hidden column 2 of a
    relation with three inputs: the map has four entries. *)
Lemma index_map_counts_witness :
  exists colmap,
    idxStr (snd (statement_vtab_best_index (Some (fun _ => 0))
                   (relation 1 3)
                   (request [equality_on 1; equality_on 1;
                             equality_on 1; equality_on 3])))
    = Some colmap
    /\ length colmap
       = length (List.filter (hidden (num_outputs (relation 1 3)))
                   (aConstraint
                      (request [equality_on 1; equality_on 1;
                                equality_on 1; equality_on 3])))
    /\ (num_inputs (relation 1 3) < Z.of_nat (length colmap) ->
        forall (cur cur1 : statement_cursor table_stmt) idxNum argv,
          length argv = length colmap ->
          statement_vtab_filter (relation 1 3) cur idxNum (Some colmap) argv
          <> Returns SQLITE_OK cur1).
Proof.
  apply (index_map_counts_every_predicate (fun _ => 0) (relation 1 3)
           (request [equality_on 1; equality_on 1;
                     equality_on 1; equality_on 3])).
  - reflexivity.
  - reflexivity.
  - left. reflexivity.
Defined.

End ScanExtras.

(** ** The order of the predicates *)

Module OrderExtras.
Import Planner Plan PlannerProofs.

Lemma hidden_columns_permutation nout cs cs' :
  Permutation cs cs' ->
  Permutation (hidden_columns nout cs) (hidden_columns nout cs').
Proof.
  induction 1 as [|c l l' Hperm IH|a b l|l l' l'' H1 IH1 H2 IH2].
  - constructor.
  - rewrite !hidden_columns_cons. destruct (hidden nout c);
      [now constructor|exact IH].
  - rewrite !hidden_columns_cons.
    destruct (hidden nout a), (hidden nout b);
      try reflexivity. apply perm_swap.
  - now transitivity (hidden_columns nout l').
Qed.

Lemma feasible_permutation nout cs cs' :
  Permutation cs cs' -> feasible nout cs = feasible nout cs'.
Proof.
  unfold feasible.
  induction 1 as [|c l l' Hperm IH|a b l|l l' l'' H1 IH1 H2 IH2]; simpl.
  - reflexivity.
  - now rewrite IH.
  - now rewrite !andb_assoc, (andb_comm (implb (hidden nout b) (usable_eq b))).
  - congruence.
Qed.

Lemma col_bound_permutation cols cols' :
  Permutation cols cols' -> col_bound cols = col_bound cols'.
Proof.
  induction 1 as [|c l l' Hperm IH|a b l|l l' l'' H1 IH1 H2 IH2]; simpl.
  - reflexivity.
  - fold (col_bound l) (col_bound l'). now rewrite IH.
  - fold (col_bound l). lia.
  - congruence.
Qed.

Lemma mask_permutation cols cols' :
  Permutation cols cols' -> mask cols = mask cols'.
Proof.
  induction 1 as [|c l l' Hperm IH|a b l|l l' l'' H1 IH1 H2 IH2]; simpl.
  - reflexivity.
  - fold (mask l) (mask l'). now rewrite IH.
  - fold (mask l). rewrite !Z.lor_assoc. f_equal. apply Z.lor_comm.
  - congruence.
Qed.

(** X19. The planner's verdict does not depend on the order in which the
    host lists the predicates: two host-prepared requests with the same
    predicates in different orders get the same return code, and one gets
    an index map exactly when the other does. *)
Theorem best_index_verdict_independent_of_order
    (m : option (nat -> Z)) (vt : statement_vtab)
    (info info' : sqlite3_index_info) :
  host_prepared vt info = true ->
  host_prepared vt info' = true ->
  Permutation (aConstraint info) (aConstraint info') ->
  fst (statement_vtab_best_index m vt info)
  = fst (statement_vtab_best_index m vt info')
  /\ (idxStr (snd (statement_vtab_best_index m vt info)) = None
      <-> idxStr (snd (statement_vtab_best_index m vt info')) = None).
Proof.
  intros Hp Hp' Hperm.
  pose proof (feasible_permutation (num_outputs vt) _ _ Hperm) as Hfeas.
  pose proof (hidden_columns_permutation (num_outputs vt) _ _ Hperm) as Hcols.
  destruct (host_prepared_spec _ _ Hp) as (_ & _ & _ & _ & Hidx & _).
  destruct (host_prepared_spec _ _ Hp') as (_ & _ & _ & _ & Hidx' & _).
  destruct (feasible (num_outputs vt) (aConstraint info)) eqn:Hf.
  - symmetry in Hfeas.
    rewrite (best_index_feasible m vt info Hp Hf).
    rewrite (best_index_feasible m vt info' Hp' Hfeas). cbv zeta.
    rewrite <- (Permutation_length Hcols).
    rewrite <- (col_bound_permutation _ _ Hcols).
    rewrite <- (mask_permutation _ _ Hcols).
    destruct ((Z.of_nat _ =? 0) || _); [|destruct m as [junk|]];
      cbn [fst snd set_idxStr set_usage set_plan_constants idxStr];
      rewrite ?Hidx, ?Hidx'; split; try reflexivity; split; auto;
      discriminate.
  - symmetry in Hfeas.
    destruct (best_index_cases m vt info Hf) as (-> & -> & _).
    destruct (best_index_cases m vt info' Hfeas) as (-> & -> & _).
    rewrite Hidx, Hidx'. split; [reflexivity|tauto].
Qed.

Lemma best_index_verdict_witness :
  fst (statement_vtab_best_index None (relation 1 3)
         (request [equality_on 3; equality_on 1; equality_on 2]))
  = fst (statement_vtab_best_index None (relation 1 3)
           (request [equality_on 1; equality_on 2; equality_on 3])).
Proof.
  apply (best_index_verdict_independent_of_order None (relation 1 3)
           (request [equality_on 3; equality_on 1; equality_on 2])
           (request [equality_on 1; equality_on 2; equality_on 3])).
  - reflexivity.
  - reflexivity.
  - exact (Permutation_cons_append [equality_on 1; equality_on 2]
             (equality_on 3)).
Defined.

End OrderExtras.
